(** * chiyo: an HTTP request router

    A shallow embedding of [chiyo.go]: the static route table, the per-method
    route trie, the middleware chain, route groups and the dispatcher
    [ServeHTTP], followed by the properties of the router.

    Conventions of the embedding.
    - Go strings are byte strings: [string] of the Standard Library.
    - Go maps are finite maps [gmap string _]; a [nil] map that is only read
      is the empty map.
    - A [*node] is owned by exactly one parent map, so the trie is a tree and
      the in-place updates of [insertDynamicRoute] are rebuilt along the
      walked path.
    - [http.HandlerFunc] values may be [nil]: they are [option]s.  Calling
      [nil] and indexing a slice out of range are run-time panics, an
      explicit [Panicked] outcome.
    - Routers are those built by [NewRouter] (their maps are allocated). *)

From Stdlib Require Import ZArith Ascii String.
From stdpp Require Import gmap strings list fin_maps.

Local Open Scope string_scope.

(** ** The Go [strings] package, as far as the router uses it *)

Module strings.

(** [strings.HasPrefix(s, c)] for a one-byte prefix. *)
Definition HasPrefix (s : string) (c : ascii) : bool :=
  match s with
  | String a _ => Ascii.eqb a c
  | EmptyString => false
  end.

(** [strings.TrimPrefix(s, c)] for a one-byte prefix. *)
Definition TrimPrefix (s : string) (c : ascii) : string :=
  match s with
  | String a s' => if Ascii.eqb a c then s' else s
  | EmptyString => EmptyString
  end.

(** [strings.Contains(s, c)] for a one-byte substring. *)
Fixpoint Contains (s : string) (c : ascii) : bool :=
  match s with
  | String a s' => Ascii.eqb a c || Contains s' c
  | EmptyString => false
  end.

(** [trimLeftByte]: drops the leading run of [c]. *)
Fixpoint trimLeftByte (s : string) (c : ascii) : string :=
  match s with
  | String a s' => if Ascii.eqb a c then trimLeftByte s' c else s
  | EmptyString => EmptyString
  end.

(** [trimRightByte]: drops the trailing run of [c]. *)
Fixpoint trimRightByte (s : string) (c : ascii) : string :=
  match s with
  | String a s' =>
      match trimRightByte s' c with
      | EmptyString => if Ascii.eqb a c then EmptyString else String a EmptyString
      | t => String a t
      end
  | EmptyString => EmptyString
  end.

(** [strings.Trim(s, cutset)] for a one-byte cutset:
    [trimLeftByte(trimRightByte(s, c), c)]. *)
Definition Trim (s : string) (c : ascii) : string :=
  trimLeftByte (trimRightByte s c) c.

(** [strings.Split(s, sep)] for a one-byte separator: the substrings
    between the separators; the empty string gives one empty substring. *)
Fixpoint Split (s : string) (c : ascii) : list string :=
  match s with
  | String a s' =>
      if Ascii.eqb a c then EmptyString :: Split s' c
      else match Split s' c with
           | x :: xs => String a x :: xs
           | [] => [String a EmptyString]
           end
  | EmptyString => [EmptyString]
  end.

End strings.

(** ** Run-time outcomes *)

Inductive runtime_error : Type :=
| IndexOutOfRange (index len : Z)
| NilDereference.

Inductive outcome (A : Type) : Type :=
| Returned (a : A)
| Panicked (e : runtime_error).

Arguments Returned {A} a.
Arguments Panicked {A} e.

(** Sequencing: a panic ends the computation.  With these instances
    [x ← c; k] runs [c] and, when it returns, [k]. *)
#[global] Instance outcome_ret : MRet outcome := fun A a => Returned a.

#[global] Instance outcome_bind : MBind outcome := fun A B k x =>
  match x with
  | Returned a => k a
  | Panicked e => Panicked e
  end.

(** ** Requests and their context *)

(** A value stored in a request context: the router stores parameter
    mappings, other layers store values of their own. *)
Inductive ctx_value : Type :=
| ParamsValue (params : gmap string string)
| OtherValue (v : string).

(** [context.Context], as the chain of [WithValue] bindings, newest first. *)
Definition Context : Type := list (string * ctx_value).

Definition WithValue (parent : Context) (key : string) (val : ctx_value) : Context :=
  (key, val) :: parent.

Fixpoint Value (c : Context) (key : string) : option ctx_value :=
  match c with
  | (k, v) :: parent => if String.eqb k key then Some v else Value parent key
  | [] => None
  end.

Record Request : Type := mkRequest {
  Method : string;
  URL_Path : string;
  ctx : Context
}.

(** [req.WithContext(ctx)]: a copy of the request with the context changed. *)
Definition WithContext (req : Request) (c : Context) : Request :=
  {| Method := Method req; URL_Path := URL_Path req; ctx := c |}.

(** ** The HTTP collaborators *)

(** The response sink and the standard not-found handler are external to
    the router: [ResponseWriter] is the state of the sink, and a handler body
    maps the sink before the call to the sink after it, or panics. *)
Class HTTP : Type := {
  ResponseWriter : Type;
  http_NotFound : ResponseWriter -> Request -> outcome ResponseWriter
}.

Section Chiyo.

Context `{HTTP}.

Definition HandlerFunc : Type :=
  option (ResponseWriter -> Request -> outcome ResponseWriter).

(** Calling a handler value; calling [nil] panics. *)
Definition call (handler : HandlerFunc) (w : ResponseWriter) (req : Request)
  : outcome ResponseWriter :=
  match handler with
  | Some f => f w req
  | None => Panicked NilDereference
  end.

Definition Middleware : Type := HandlerFunc -> HandlerFunc.

#[warnings="-register-all"]
Inductive node : Type := mkNode {
  children : gmap string node;
  handler : HandlerFunc;
  isParam : bool;
  isWillcard : bool;
  paramName : string
}.

Record Router : Type := mkRouter {
  staticRoutes : gmap string HandlerFunc;
  dynamicRoutes : gmap string node;
  middleware : list Middleware;
  notFound : HandlerFunc
}.

(** A group refers to its router by pointer; the router it points to is
    passed to the group's operations as the state they update. *)
Record Group : Type := mkGroup {
  prefix : string;
  g_middleware : list Middleware
}.

Definition NewRouter : Router :=
  {| staticRoutes := ∅;
     dynamicRoutes := ∅;
     middleware := [];
     notFound := Some http_NotFound |}.

Definition Router_Group (r : Router) (prefix : string) : Group :=
  {| prefix := strings.Trim prefix "/"; g_middleware := [] |}.

Definition Router_Use (r : Router) (mw : Middleware) : Router :=
  {| staticRoutes := staticRoutes r;
     dynamicRoutes := dynamicRoutes r;
     middleware := middleware r ++ [mw];
     notFound := notFound r |}.

Definition Group_Use (g : Group) (mw : Middleware) : Group :=
  {| prefix := prefix g; g_middleware := g_middleware g ++ [mw] |}.

(** *** Middleware composition *)

(** The loop [for i := start; i >= 0; i-- { handler = mws[i](handler) }],
    with [n = i + 1] iterations left; indexing outside the slice panics. *)
Fixpoint wrapDown (mws : list Middleware) (n : nat) (handler : HandlerFunc)
  : outcome HandlerFunc :=
  match n with
  | O => Returned handler
  | S i =>
      match mws !! i with
      | Some mw => wrapDown mws i (mw handler)
      | None => Panicked (IndexOutOfRange (Z.of_nat i) (Z.of_nat (length mws)))
      end
  end.

Definition wrapFrom (mws : list Middleware) (start : Z) (handler : HandlerFunc)
  : outcome HandlerFunc :=
  wrapDown mws (Z.to_nat (start + 1)) handler.

Definition serveWithMiddleware (r : Router) (handler : HandlerFunc)
    (w : ResponseWriter) (req : Request) : outcome ResponseWriter :=
  if decide (length (middleware r) = 0%nat) then call handler w req
  else
    handler' ← wrapFrom (middleware r) (Z.of_nat (length (middleware r)) - 1) handler;
    call handler' w req.

(** *** Registration *)

(** The key and the flags [insertDynamicRoute] computes for one segment:
    [(key, isParam, isWillcard, paramName)]. *)
Definition partKey (part : string) : string * bool * bool * string :=
  if strings.HasPrefix part ":" then
    (":param", true, false, strings.TrimPrefix part ":")
  else if strings.HasPrefix part "*" then
    ("*", false, true, EmptyString)
  else
    (part, false, false, EmptyString).

(** The walk of [insertDynamicRoute] from the node [current]: a missing
    child is created, an existing child is kept as it is, and the handler is
    set on the node the walk ends at. *)
Fixpoint insertParts (current : node) (parts : list string) (h : HandlerFunc) : node :=
  match parts with
  | [] =>
      {| children := children current; handler := h;
         isParam := isParam current; isWillcard := isWillcard current;
         paramName := paramName current |}
  | part :: rest =>
      let '(key, isP, isW, name) := partKey part in
      let child :=
        match children current !! key with
        | Some c => c
        | None => {| children := ∅; handler := None;
                     isParam := isP; isWillcard := isW; paramName := name |}
        end in
      {| children := <[key := insertParts child rest h]> (children current);
         handler := handler current;
         isParam := isParam current; isWillcard := isWillcard current;
         paramName := paramName current |}
  end.

Definition insertDynamicRoute (r : Router) (method : string)
    (parts : list string) (h : HandlerFunc) : outcome Router :=
  match dynamicRoutes r !! method with
  | Some current =>
      Returned {| staticRoutes := staticRoutes r;
                  dynamicRoutes := <[method := insertParts current parts h]> (dynamicRoutes r);
                  middleware := middleware r;
                  notFound := notFound r |}
  | None => Panicked NilDereference
  end.

Definition Router_AddRoute (r : Router) (method path : string) (h : HandlerFunc)
  : outcome Router :=
  let path := strings.Trim path "/" in
  let parts := strings.Split path "/" in
  if strings.Contains path ":" || strings.Contains path "*" then
    let r1 :=
      match dynamicRoutes r !! method with
      | None =>
          {| staticRoutes := staticRoutes r;
             dynamicRoutes :=
               <[method := {| children := ∅; handler := None; isParam := false;
                              isWillcard := false; paramName := EmptyString |}]>
                 (dynamicRoutes r);
             middleware := middleware r;
             notFound := notFound r |}
      | Some _ => r
      end in
    insertDynamicRoute r1 method parts h
  else
    Returned {| staticRoutes := <[method ++ " " ++ path := h]> (staticRoutes r);
                dynamicRoutes := dynamicRoutes r;
                middleware := middleware r;
                notFound := notFound r |}.

(** [g.router] points to [r]: the route is added to [r]. *)
Definition Group_AddRoute (g : Group) (r : Router) (method path : string)
    (h : HandlerFunc) : outcome Router :=
  let fullPath := prefix g ++ "/" ++ strings.Trim path "/" in
  wrappedHandler ← wrapFrom (g_middleware g) (Z.of_nat (length (g_middleware g))) h;
  Router_AddRoute r method fullPath wrappedHandler.

(** *** Dispatch *)

(** The walk of [searchDynamicRoute] from the node [current], with the
    parameters bound so far.  The [nil] map of the unmatched case is the
    empty map. *)
Fixpoint searchParts (current : node) (parts : list string)
    (params : gmap string string) : HandlerFunc * gmap string string :=
  match parts with
  | [] => (handler current, params)
  | part :: rest =>
      match children current !! part with
      | Some child => searchParts child rest params
      | None =>
          match children current !! ":param" with
          | Some paramChild =>
              searchParts paramChild rest
                (if decide (paramName paramChild = EmptyString) then params
                 else <[paramName paramChild := part]> params)
          | None =>
              match children current !! "*" with
              | Some wildcardChild => (handler wildcardChild, params)
              | None => (None, ∅)
              end
          end
      end
  end.

Definition searchDynamicRoute (root : node) (path : string)
  : HandlerFunc * gmap string string :=
  searchParts root (strings.Split path "/") ∅.

Definition ServeHTTP (r : Router) (w : ResponseWriter) (req : Request)
  : outcome ResponseWriter :=
  let path := strings.Trim (URL_Path req) "/" in
  let method := Method req in
  let fullPath := method ++ " " ++ path in
  match staticRoutes r !! fullPath with
  | Some h => serveWithMiddleware r h w req
  | None =>
      match dynamicRoutes r !! method with
      | Some root =>
          match searchDynamicRoute root path with
          | (Some f, params) =>
              let ctx' := WithValue (ctx req) "params" (ParamsValue params) in
              let req' := WithContext req ctx' in
              serveWithMiddleware r (Some f) w req'
          | (None, _) => call (notFound r) w req
          end
      | None => call (notFound r) w req
      end
  end.

(** *** Vocabulary of the properties *)

(** [m0(m1(...mn-1(h)))]: the first middleware of the sequence outermost. *)
Definition composed (mws : list Middleware) (h : HandlerFunc) : HandlerFunc :=
  foldr (fun mw next => mw next) h mws.

(** [Use] called once for each middleware of [mws], in that order. *)
Definition Uses (r : Router) (mws : list Middleware) : Router :=
  fold_left Router_Use mws r.

(** The root [AddRoute] creates for a method without a trie. *)
Definition emptyRoot : node :=
  {| children := ∅; handler := None; isParam := false; isWillcard := false;
     paramName := EmptyString |}.

(** The trie of a method, empty when the method has none yet. *)
Definition rootOf (r : Router) (method : string) : node :=
  default emptyRoot (dynamicRoutes r !! method).

(** The key of a segment and the child the walk of [insertParts] enters. *)
Definition keyOf (part : string) : string := (partKey part).1.1.1.

Definition childAt (current : node) (part : string) : node :=
  match children current !! keyOf part with
  | Some c => c
  | None =>
      {| children := ∅; handler := None; isParam := (partKey part).1.1.2;
         isWillcard := (partKey part).1.2; paramName := (partKey part).2 |}
  end.

(** The classification [AddRoute] makes of a trimmed path. *)
Definition isDynamic (path : string) : bool :=
  strings.Contains path ":" || strings.Contains path "*".

(** A registration, as the [Route] struct of the source records it. *)
Record Route : Type := mkRoute {
  method : string;
  pattern : string;
  route_handler : HandlerFunc
}.

(** [AddRoute] called once for each registration of [routes], in that order. *)
Fixpoint AddRoutes (r : Router) (routes : list Route) : outcome Router :=
  match routes with
  | [] => Returned r
  | route :: rest =>
      r' ← Router_AddRoute r (method route) (pattern route) (route_handler route);
      AddRoutes r' rest
  end.

(** The key of a route in the static table; a dynamic route has none. *)
Definition staticKey (route : Route) : option string :=
  let path := strings.Trim (pattern route) "/" in
  if strings.Contains path ":" || strings.Contains path "*" then None
  else Some (method route ++ " " ++ path).

(** What a dispatch selects, before anything is called. *)
Inductive resolution : Type :=
| StaticHit (h : HandlerFunc)
| DynamicHit (f : ResponseWriter -> Request -> outcome ResponseWriter)
             (params : gmap string string)
| Miss.

(** The request as a handler of a dynamic route receives it. *)
Definition withParams (req : Request) (params : gmap string string) : Request :=
  WithContext req (WithValue (ctx req) "params" (ParamsValue params)).

(** The selection [ServeHTTP] makes for a method and a request path. *)
Definition resolve (r : Router) (method path : string) : resolution :=
  let path := strings.Trim path "/" in
  match staticRoutes r !! (method ++ " " ++ path) with
  | Some h => StaticHit h
  | None =>
      match dynamicRoutes r !! method with
      | Some root =>
          match searchDynamicRoute root path with
          | (Some f, params) => DynamicHit f params
          | (None, _) => Miss
          end
      | None => Miss
      end
  end.

(** The call [ServeHTTP] makes for a selection. *)
Definition respond (r : Router) (res : resolution) (w : ResponseWriter)
    (req : Request) : outcome ResponseWriter :=
  match res with
  | StaticHit h => serveWithMiddleware r h w req
  | DynamicHit f params => serveWithMiddleware r (Some f) w (withParams req params)
  | Miss => call (notFound r) w req
  end.

(** *** The first revision of the search and of the dispatcher

    The first listing of [chiyo.go]: its nodes have no [paramName], its
    search returns the handler alone and its dispatcher passes the request
    on as it came.  The search reads the [children] and the [handler] of a
    node only, so it is stated over the nodes of the second listing. *)

Fixpoint searchParts_v1 (current : node) (parts : list string) : HandlerFunc :=
  match parts with
  | [] => handler current
  | part :: rest =>
      match children current !! part with
      | Some child => searchParts_v1 child rest
      | None =>
          match children current !! ":param" with
          | Some paramChild => searchParts_v1 paramChild rest
          | None =>
              match children current !! "*" with
              | Some wildcardChild => handler wildcardChild
              | None => None
              end
          end
      end
  end.

Definition searchDynamicRoute_v1 (root : node) (path : string) : HandlerFunc :=
  searchParts_v1 root (strings.Split path "/").

Definition ServeHTTP_v1 (r : Router) (w : ResponseWriter) (req : Request)
  : outcome ResponseWriter :=
  let path := strings.Trim (URL_Path req) "/" in
  let method := Method req in
  let fullPath := method ++ " " ++ path in
  match staticRoutes r !! fullPath with
  | Some h => serveWithMiddleware r h w req
  | None =>
      match dynamicRoutes r !! method with
      | Some root =>
          match searchDynamicRoute_v1 root path with
          | Some f => serveWithMiddleware r (Some f) w req
          | None => call (notFound r) w req
          end
      | None => call (notFound r) w req
      end
  end.

(** *** Vocabulary of the trie *)

(** The node a sequence of keys leads to, when every key has a child. *)
Fixpoint walk (current : node) (keys : list string) : option node :=
  match keys with
  | [] => Some current
  | key :: rest =>
      match children current !! key with
      | Some child => walk child rest
      | None => None
      end
  end.

(** The handler at a sequence of keys, [nil] where there is no node. *)
Definition handlerAt (current : node) (keys : list string) : HandlerFunc :=
  match walk current keys with
  | Some c => handler c
  | None => None
  end.

(** A node as [insertDynamicRoute] creates it: no child and no handler. *)
Definition blank (n : node) : Prop := children n = ∅ /\ handler n = None.

(** The keys [insertDynamicRoute] walks for the segments of a route. *)
Definition keysOf (parts : list string) : list string := map keyOf parts.

(** The flags and the name of a node agree with the key it is stored under. *)
Definition flagsFor (key : string) (c : node) : Prop :=
  isParam c = bool_decide (key = ":param")
  /\ isWillcard c = bool_decide (key = "*")
  /\ (key <> ":param" -> paramName c = EmptyString).

(** Every node below [n] agrees with its key. *)
#[warnings="-register-all"]
Inductive flagged : node -> Prop :=
| flagged_node (n : node) :
    (forall (key : string) (c : node),
        children n !! key = Some c -> flagsFor key c /\ flagged c) ->
    flagged n.

(** The keys of a route in the trie of its method; a static route has none. *)
Definition trieKeys (route : Route) : option (list string) :=
  let path := strings.Trim (pattern route) "/" in
  if strings.Contains path ":" || strings.Contains path "*"
  then Some (keysOf (strings.Split path "/"))
  else None.

(** The handler of the last route of [routes] registered for the method [m]
    at the trie keys [keys], [start] when there is none. *)
Definition lastAtKeys (m : string) (keys : list string) (start : HandlerFunc)
    (routes : list Route) : HandlerFunc :=
  foldl (fun acc route =>
           if decide (method route = m /\ trieKeys route = Some keys)
           then route_handler route else acc)
        start routes.

(** The entry of the last route of [routes] registered at the static key
    [key], [start] when there is none. *)
Definition lastAtKey (key : string) (start : option HandlerFunc)
    (routes : list Route) : option HandlerFunc :=
  foldl (fun acc route =>
           if decide (staticKey route = Some key)
           then Some (route_handler route) else acc)
        start routes.

End Chiyo.

(** ** A tracing instance

    The response sink records what ran, in order: the pre- and post-logic of
    logging middleware, the handler bodies with the parameter mapping they
    find under the context key, and the standard not-found response. *)

Inductive event : Type :=
| Pre (name : string)
| Post (name : string)
| Handled (name : string) (params : option ctx_value)
| StandardNotFound.

#[global] Instance trace_HTTP : HTTP :=
  {| ResponseWriter := list event;
     http_NotFound := fun w _ => Returned (w ++ [StandardNotFound])%list |}.

(** A handler that records its name and what it reads under ["params"]. *)
Definition tracing_body (name : string) (w : list event) (req : Request)
  : outcome (list event) :=
  Returned (w ++ [Handled name (Value (ctx req) "params")])%list.

Definition tracing (name : string) : HandlerFunc := Some (tracing_body name).

(** A middleware with pre-logic and post-logic around the next handler. *)
Definition logging (name : string) : Middleware :=
  fun next =>
    Some (fun w req =>
            w' ← call next (w ++ [Pre name])%list req;
            Returned (w' ++ [Post name])%list).

Definition GET (path : string) : Request :=
  {| Method := "GET"; URL_Path := path; ctx := [] |}.

(** A node with a literal child [me] and a parameter child. *)
Definition bothChildren : @node trace_HTTP :=
  mkNode (<[ "me" := mkNode ∅ (tracing "h1") false false EmptyString ]>
            {[ ":param" := mkNode ∅ (tracing "h2") true false "id" ]})
         None false false EmptyString.

(** A node whose only child is a wildcard. *)
Definition onlyWildcard : @node trace_HTTP :=
  mkNode {[ "*" := mkNode ∅ (tracing "h") false true EmptyString ]}
         None false false EmptyString.

(** The router with the one route [GET /users/:id] and one middleware. *)
Definition usersRouter : @Router trace_HTTP :=
  {| staticRoutes := ∅;
     dynamicRoutes :=
       {[ "GET" := insertParts emptyRoot ["users"; ":id"] (tracing "h") ]};
     middleware := [logging "A"];
     notFound := Some http_NotFound |}.

(** A path segment: not empty and without a slash. *)
Definition segment (s : string) : bool :=
  negb (String.eqb s EmptyString) && negb (strings.Contains s "/").

(** A literal segment: a segment that declares no parameter and no wildcard. *)
Definition literal (s : string) : bool :=
  segment s && negb (strings.HasPrefix s ":") && negb (strings.HasPrefix s "*").

(** The spellings [a/b], [/a/b] and [/a/b/] of a path. *)
Definition spellings (s : string) : list string := [s; "/" ++ s; "/" ++ s ++ "/"].

(** The path [/s1/s2/.../sn]. *)
Definition pathOf (segs : list string) : string := "/" ++ String.concat "/" segs.

(** A segment of a route together with the request segment set against it:
    a literal segment, or a parameter with its name and the value of the
    request. *)
Inductive pseg : Type :=
| Lit (s : string)
| Par (name v : string).

Definition patternOf (x : pseg) : string :=
  match x with
  | Lit s => s
  | Par name _ => ":" ++ name
  end.

Definition requestOf (x : pseg) : string :=
  match x with
  | Lit s => s
  | Par _ v => v
  end.

(** Literal segments are literal; a parameter name has no slash (it may be
    empty); a value is a segment other than the reserved key. *)
Definition pseg_ok (x : pseg) : bool :=
  match x with
  | Lit s => literal s
  | Par name v =>
      negb (strings.Contains name "/") && segment v && negb (String.eqb v ":param")
  end.

(** The bindings the search makes along a route, first segment first: a
    later parameter of the same name replaces the earlier one, a parameter
    without a name binds nothing. *)
Definition bindings (pat : list pseg) (params : gmap string string)
  : gmap string string :=
  foldl (fun ps x =>
           match x with
           | Lit _ => ps
           | Par name v => if decide (name = EmptyString) then ps else <[name := v]> ps
           end)
        params pat.

(** The same without the condition on the value: any segment is a value. *)
Definition pseg_wf (x : pseg) : bool :=
  match x with
  | Lit s => literal s
  | Par name v => negb (strings.Contains name "/") && segment v
  end.

(** The bindings the search makes along a route for any values: a value
    equal to the reserved key [":param"] is found by the literal lookup of
    the search, which binds nothing. *)
Definition bound (pat : list pseg) (params : gmap string string)
  : gmap string string :=
  foldl (fun ps x =>
           match x with
           | Lit _ => ps
           | Par name v =>
               if decide (v = ":param") then ps
               else if decide (name = EmptyString) then ps
               else <[name := v]> ps
           end)
        params pat.

(** ** Facts about the string functions *)

Section StringFacts.

Import strings.

Variable c : ascii.

Lemma trimRightByte_snoc s :
  trimRightByte (s ++ String c EmptyString) c = trimRightByte s c.
Proof.
  induction s as [|a s IH]; simpl.
  - now rewrite Ascii.eqb_refl.
  - now rewrite IH.
Qed.

Lemma Trim_cons s : Trim (String c s) c = Trim s c.
Proof.
  unfold Trim; simpl.
  destruct (trimRightByte s c) as [|b t]; simpl; now rewrite Ascii.eqb_refl.
Qed.

Lemma Trim_snoc s : Trim (s ++ String c EmptyString) c = Trim s c.
Proof. unfold Trim. now rewrite trimRightByte_snoc. Qed.

Lemma trimRightByte_clean s :
  s <> EmptyString -> Contains s c = false -> trimRightByte s c = s.
Proof.
  induction s as [|a s IH]; [easy|]; simpl; intros _ Hc.
  apply orb_false_iff in Hc as [Ha Hs].
  destruct s as [|b s]; simpl in *; [now rewrite Ha|].
  rewrite IH by easy. reflexivity.
Qed.

Lemma trimRightByte_app s t :
  trimRightByte t c <> EmptyString -> trimRightByte (s ++ t) c = s ++ trimRightByte t c.
Proof.
  intros Ht. induction s as [|a s IH]; simpl; [easy|].
  rewrite IH. destruct s; simpl; [|easy].
  destruct (trimRightByte t c); easy.
Qed.

Lemma Contains_app s t : Contains (s ++ t) c = Contains s c || Contains t c.
Proof. induction s as [|a s IH]; simpl; [easy|]. now rewrite IH, orb_assoc. Qed.

Lemma Split_clean s : Contains s c = false -> Split s c = [s].
Proof.
  induction s as [|a s IH]; simpl; [easy|]; intros Hc.
  apply orb_false_iff in Hc as [Ha Hs]. now rewrite Ha, IH.
Qed.

Lemma Split_app s t :
  Contains s c = false -> Split (s ++ String c t) c = s :: Split t c.
Proof.
  induction s as [|a s IH]; simpl; intros Hc.
  - now rewrite Ascii.eqb_refl.
  - apply orb_false_iff in Hc as [Ha Hs]. now rewrite Ha, IH.
Qed.

End StringFacts.

Lemma Trim_spelling s p : In p (spellings s) -> strings.Trim p "/" = strings.Trim s "/".
Proof.
  intros [<-|[<-|[<-|[]]]]; [easy|apply Trim_cons|].
  change ("/" ++ s ++ "/") with (String "/" (s ++ String "/" EmptyString)).
  now rewrite Trim_cons, Trim_snoc.
Qed.

Lemma segment_spec s :
  segment s = true <-> s <> EmptyString /\ strings.Contains s "/" = false.
Proof.
  unfold segment. rewrite andb_true_iff, !negb_true_iff.
  split; intros [Hs Hc]; split; try easy.
  - intros ->. discriminate.
  - destruct s; [easy|reflexivity].
Qed.

Lemma literal_spec s :
  literal s = true <->
  segment s = true /\ strings.HasPrefix s ":" = false /\ strings.HasPrefix s "*" = false.
Proof. unfold literal. rewrite !andb_true_iff, !negb_true_iff. tauto. Qed.

Lemma concat_cons2 s s' segs :
  String.concat "/" (s :: s' :: segs) = s ++ String "/" (String.concat "/" (s' :: segs)).
Proof. reflexivity. Qed.

(** Splitting the joined segments gives the segments back. *)
Lemma Split_concat segs :
  Forall (fun s => segment s = true) segs -> segs <> [] ->
  strings.Split (String.concat "/" segs) "/" = segs.
Proof.
  induction 1 as [|s segs Hs Hsegs IH]; [easy|]; intros _.
  apply segment_spec in Hs as [_ Hs].
  destruct segs as [|s' segs].
  - now apply Split_clean.
  - rewrite concat_cons2, Split_app by easy. f_equal. now apply IH.
Qed.

(** The joined segments neither start nor end with a slash. *)
Lemma trimRightByte_concat segs :
  Forall (fun s => segment s = true) segs ->
  strings.trimRightByte (String.concat "/" segs) "/" = String.concat "/" segs.
Proof.
  induction 1 as [|s segs Hs Hsegs IH]; [easy|].
  apply segment_spec in Hs as [Hne Hs].
  destruct segs as [|s' segs].
  - simpl. now apply trimRightByte_clean.
  - rewrite concat_cons2.
    assert (Hne' : String.concat "/" (s' :: segs) <> EmptyString).
    { apply Forall_inv in Hsegs. apply segment_spec in Hsegs as [Hs' _].
      destruct s'; [easy|]. destruct segs; [easy|]. now rewrite concat_cons2. }
    remember (String.concat "/" (s' :: segs)) as t.
    assert (Ht : strings.trimRightByte (String "/" t) "/" = String "/" t).
    { simpl. rewrite IH. now destruct t. }
    rewrite trimRightByte_app; rewrite Ht; easy.
Qed.

Lemma Trim_pathOf segs :
  Forall (fun s => segment s = true) segs ->
  strings.Trim (pathOf segs) "/" = String.concat "/" segs.
Proof.
  intros Hsegs. unfold pathOf.
  change ("/" ++ String.concat "/" segs) with (String "/" (String.concat "/" segs)).
  rewrite Trim_cons. unfold strings.Trim. rewrite trimRightByte_concat by easy.
  destruct Hsegs as [|s segs Hs _]; [easy|].
  apply segment_spec in Hs as [Hne Hs].
  destruct s as [|a s]; [easy|].
  simpl in Hs. apply orb_false_iff in Hs as [Ha _].
  destruct segs; simpl; now rewrite Ha.
Qed.

Lemma Contains_concat (segs : list string) (seg : string) (c : ascii) :
  In seg segs -> strings.Contains seg c = true ->
  strings.Contains (String.concat "/" segs) c = true.
Proof.
  intros Hin Hc. induction segs as [|s segs IH]; [easy|].
  destruct segs as [|s' segs].
  - destruct Hin as [->|[]]. exact Hc.
  - rewrite concat_cons2, Contains_app.
    destruct Hin as [->|Hin]; [now rewrite Hc|].
    cbn [strings.Contains]. rewrite (IH Hin). now rewrite !orb_true_r.
Qed.

Lemma literal_segments (segs : list string) :
  Forall (fun s => literal s = true) segs -> Forall (fun s => segment s = true) segs.
Proof.
  induction 1 as [|s segs Hs _ IH]; constructor; [|easy].
  now apply literal_spec in Hs.
Qed.

Lemma segment_param name : segment name = true -> segment (":" ++ name) = true.
Proof. intros Hn. apply segment_spec in Hn as [_ Hn]. now apply segment_spec. Qed.

Lemma isDynamic_param (s name : string) :
  isDynamic (String.concat "/" [s; ":" ++ name]) = true.
Proof.
  unfold isDynamic. rewrite concat_cons2, Contains_app. cbn.
  now rewrite orb_true_r.
Qed.

(** The trace of a chain of logging middleware around a tracing handler. *)
Lemma call_logging_chain (names : list string) (name : string)
    (w : list event) (req : Request) :
  call (H := trace_HTTP) (composed (map logging names) (tracing name)) w req =
  Returned (w ++ map Pre names
              ++ [Handled name (Value (ctx req) "params")]
              ++ map Post (rev names))%list.
Proof.
  revert w. induction names as [|a names IH]; intros w; [easy|].
  cbn [map composed foldr logging call]. fold (composed (map logging names) (tracing name)).
  rewrite IH. cbn. f_equal.
  rewrite map_app. cbn. now rewrite <- !app_assoc.
Qed.

(** ** Facts about the router *)

Section RouterFacts.

Context `{HTTP}.

Implicit Types (r : Router) (h : HandlerFunc) (mws : list Middleware).

Lemma wrapDown_take mws n h :
  (n <= length mws)%nat -> wrapDown mws n h = Returned (composed (take n mws) h).
Proof.
  revert h. induction n as [|i IH]; intros h Hn; cbn [wrapDown].
  - reflexivity.
  - destruct (mws !! i) as [mw|] eqn:Hmw.
    + rewrite IH by lia.
      assert (Htake : take (S i) mws = (take i mws ++ [mw])%list)
        by now apply take_S_r.
      rewrite Htake. unfold composed. now rewrite foldr_app.
    + apply lookup_ge_None_1 in Hmw. change (length mws <= i)%nat in Hmw. lia.
Qed.

Lemma wrapDown_beyond mws h :
  wrapDown mws (S (length mws)) h =
  Panicked (IndexOutOfRange (Z.of_nat (length mws)) (Z.of_nat (length mws))).
Proof.
  cbn [wrapDown]. destruct (mws !! length mws) as [mw|] eqn:Hmw; [|easy].
  apply lookup_lt_Some in Hmw. change (length mws < length mws)%nat in Hmw. lia.
Qed.

Lemma serveWithMiddleware_composed r h w req :
  serveWithMiddleware r h w req = call (composed (middleware r) h) w req.
Proof.
  unfold serveWithMiddleware. case_decide as Hlen.
  - apply length_zero_iff_nil in Hlen. now rewrite Hlen.
  - unfold wrapFrom.
    replace (Z.to_nat (Z.of_nat (length (middleware r)) - 1 + 1))
      with (length (middleware r)) by lia.
    rewrite wrapDown_take by lia. now rewrite firstn_all.
Qed.

Lemma middleware_Uses r mws : middleware (Uses r mws) = (middleware r ++ mws)%list.
Proof.
  revert r. induction mws as [|mw mws IH]; intros r; simpl.
  - now rewrite app_nil_r.
  - unfold Uses in *. simpl. rewrite IH. simpl. now rewrite <- app_assoc.
Qed.

Lemma staticRoutes_Uses r mws : staticRoutes (Uses r mws) = staticRoutes r.
Proof. revert r. induction mws as [|mw mws IH]; intros r; [easy|]. exact (IH (Router_Use r mw)). Qed.

Lemma dynamicRoutes_Uses r mws : dynamicRoutes (Uses r mws) = dynamicRoutes r.
Proof. revert r. induction mws as [|mw mws IH]; intros r; [easy|]. exact (IH (Router_Use r mw)). Qed.

Lemma notFound_Uses r mws : notFound (Uses r mws) = notFound r.
Proof. revert r. induction mws as [|mw mws IH]; intros r; [easy|]. exact (IH (Router_Use r mw)). Qed.

(** [AddRoute] always returns; what it returns depends on the path only
    through the trimmed path. *)
Lemma Router_AddRoute_static r method path h :
  isDynamic (strings.Trim path "/") = false ->
  Router_AddRoute r method path h =
  Returned {| staticRoutes :=
                <[method ++ " " ++ strings.Trim path "/" := h]> (staticRoutes r);
              dynamicRoutes := dynamicRoutes r;
              middleware := middleware r;
              notFound := notFound r |}.
Proof. unfold Router_AddRoute, isDynamic. now intros ->. Qed.

Lemma Router_AddRoute_dynamic r method path h :
  isDynamic (strings.Trim path "/") = true ->
  Router_AddRoute r method path h =
  Returned {| staticRoutes := staticRoutes r;
              dynamicRoutes :=
                <[method := insertParts (rootOf r method)
                              (strings.Split (strings.Trim path "/") "/") h]>
                  (dynamicRoutes r);
              middleware := middleware r;
              notFound := notFound r |}.
Proof.
  unfold Router_AddRoute, isDynamic, insertDynamicRoute, rootOf. intros ->.
  destruct (dynamicRoutes r !! method) as [current|] eqn:Hroot; cbn.
  - now rewrite Hroot.
  - now rewrite lookup_insert_eq, insert_insert_eq.
Qed.

Lemma Router_AddRoute_returns r method path h :
  exists r', Router_AddRoute r method path h = Returned r' /\
             middleware r' = middleware r /\ notFound r' = notFound r.
Proof.
  destruct (isDynamic (strings.Trim path "/")) eqn:Hd.
  - rewrite Router_AddRoute_dynamic by easy. eauto.
  - rewrite Router_AddRoute_static by easy. eauto.
Qed.

End RouterFacts.

(** ** Facts about the route trie and the dispatcher *)

Section TrieFacts.

Context `{HTTP}.

Implicit Types (r : Router) (h : HandlerFunc) (current : node).

Lemma partKey_literal s :
  strings.HasPrefix s ":" = false -> strings.HasPrefix s "*" = false ->
  partKey s = (s, false, false, EmptyString).
Proof. unfold partKey. now intros -> ->. Qed.

Lemma partKey_param name : partKey (":" ++ name) = (":param", true, false, name).
Proof. reflexivity. Qed.

Lemma insertParts_cons current part rest h :
  insertParts current (part :: rest) h =
  {| children :=
       <[keyOf part := insertParts (childAt current part) rest h]> (children current);
     handler := handler current;
     isParam := isParam current; isWillcard := isWillcard current;
     paramName := paramName current |}.
Proof.
  unfold childAt, keyOf. cbn [insertParts].
  now destruct (partKey part) as [[[key isP] isW] name].
Qed.

(** Inserting a second handler at the same segments leaves the trie the
    insertion of the second handler alone gives. *)
Lemma insertParts_twice current parts h1 h2 :
  insertParts (insertParts current parts h1) parts h2 = insertParts current parts h2.
Proof.
  revert current. induction parts as [|part rest IH]; intros current; [easy|].
  rewrite !insertParts_cons. cbn [children handler isParam isWillcard paramName].
  f_equal. unfold childAt at 1. cbn [children].
  now rewrite lookup_insert_eq, IH, insert_insert_eq.
Qed.

(** One step of the search, by the child the segment finds. *)
Lemma search_literal current part rest params child :
  children current !! part = Some child ->
  searchParts current (part :: rest) params = searchParts child rest params.
Proof. cbn [searchParts]. now intros ->. Qed.

Lemma search_param current part rest params child :
  children current !! part = None ->
  children current !! ":param" = Some child ->
  searchParts current (part :: rest) params =
  searchParts child rest
    (if decide (paramName child = EmptyString) then params
     else <[paramName child := part]> params).
Proof. cbn [searchParts]. now intros -> ->. Qed.

Lemma search_wildcard current part rest params child :
  children current !! part = None ->
  children current !! ":param" = None ->
  children current !! "*" = Some child ->
  searchParts current (part :: rest) params = (handler child, params).
Proof. cbn [searchParts]. now intros -> -> ->. Qed.

Lemma search_unmatched current part rest params :
  children current !! part = None ->
  children current !! ":param" = None ->
  children current !! "*" = None ->
  searchParts current (part :: rest) params = (None, ∅).
Proof. cbn [searchParts]. now intros -> -> ->. Qed.

(** The three ways a dispatch ends. *)
Lemma ServeHTTP_static r w req h :
  staticRoutes r !! (Method req ++ " " ++ strings.Trim (URL_Path req) "/") = Some h ->
  ServeHTTP r w req = serveWithMiddleware r h w req.
Proof. unfold ServeHTTP. cbn zeta. now intros ->. Qed.

Lemma ServeHTTP_dynamic r w req root f params :
  staticRoutes r !! (Method req ++ " " ++ strings.Trim (URL_Path req) "/") = None ->
  dynamicRoutes r !! Method req = Some root ->
  searchDynamicRoute root (strings.Trim (URL_Path req) "/") = (Some f, params) ->
  ServeHTTP r w req = serveWithMiddleware r (Some f) w (withParams req params).
Proof. unfold ServeHTTP. cbn zeta. now intros -> -> ->. Qed.

Lemma ServeHTTP_no_trie r w req :
  staticRoutes r !! (Method req ++ " " ++ strings.Trim (URL_Path req) "/") = None ->
  dynamicRoutes r !! Method req = None ->
  ServeHTTP r w req = call (notFound r) w req.
Proof. unfold ServeHTTP. cbn zeta. now intros -> ->. Qed.

Lemma ServeHTTP_no_handler r w req root :
  staticRoutes r !! (Method req ++ " " ++ strings.Trim (URL_Path req) "/") = None ->
  dynamicRoutes r !! Method req = Some root ->
  (searchDynamicRoute root (strings.Trim (URL_Path req) "/")).1 = None ->
  ServeHTTP r w req = call (notFound r) w req.
Proof.
  unfold ServeHTTP. cbn zeta. intros -> ->.
  destruct (searchDynamicRoute _ _) as [[f|] params]; now cbn.
Qed.

(** Registration and dispatch of paths given by their segments. *)
Lemma Router_AddRoute_pattern r method (segs : list string) h :
  Forall (fun s => segment s = true) segs -> segs <> [] ->
  isDynamic (String.concat "/" segs) = true ->
  Router_AddRoute r method (pathOf segs) h =
  Returned {| staticRoutes := staticRoutes r;
              dynamicRoutes :=
                <[method := insertParts (rootOf r method) segs h]> (dynamicRoutes r);
              middleware := middleware r;
              notFound := notFound r |}.
Proof.
  intros Hsegs Hne Hdyn.
  rewrite Router_AddRoute_dynamic; rewrite Trim_pathOf by easy; [|easy].
  now rewrite Split_concat.
Qed.

Lemma searchParts_emptyRoot part rest params :
  searchParts emptyRoot (part :: rest) params = (None, ∅).
Proof. apply search_unmatched; apply lookup_empty. Qed.

Lemma ServeHTTP_trie r w req (segs : list string) f params :
  staticRoutes r = ∅ ->
  Forall (fun s => segment s = true) segs -> segs <> [] ->
  URL_Path req = pathOf segs ->
  searchParts (rootOf r (Method req)) segs ∅ = (Some f, params) ->
  ServeHTTP r w req =
  call (composed (middleware r) (Some f)) w (withParams req params).
Proof.
  intros Hstatic Hsegs Hne Hpath Hsearch.
  rewrite <- serveWithMiddleware_composed.
  unfold rootOf in Hsearch.
  destruct (dynamicRoutes r !! Method req) as [root|] eqn:Hroot; cbn in Hsearch.
  - apply ServeHTTP_dynamic with (root := root); [|easy|].
    + rewrite Hstatic. apply lookup_empty.
    + unfold searchDynamicRoute.
      now rewrite Hpath, Trim_pathOf, Split_concat.
  - destruct segs as [|part rest]; [easy|].
    now rewrite searchParts_emptyRoot in Hsearch.
Qed.

Lemma ServeHTTP_trie_miss r w req (segs : list string) :
  staticRoutes r = ∅ ->
  Forall (fun s => segment s = true) segs -> segs <> [] ->
  URL_Path req = pathOf segs ->
  (searchParts (rootOf r (Method req)) segs ∅).1 = None ->
  ServeHTTP r w req = call (notFound r) w req.
Proof.
  intros Hstatic Hsegs Hne Hpath Hsearch.
  assert (Hkey : staticRoutes r !!
            (Method req ++ " " ++ strings.Trim (URL_Path req) "/") = None)
    by (rewrite Hstatic; apply lookup_empty).
  unfold rootOf in Hsearch.
  destruct (dynamicRoutes r !! Method req) as [root|] eqn:Hroot; cbn in Hsearch.
  - apply ServeHTTP_no_handler with (root := root); [easy..|].
    unfold searchDynamicRoute.
    now rewrite Hpath, Trim_pathOf, Split_concat.
  - now apply ServeHTTP_no_trie.
Qed.

(** The trie of one route [/s/:name], and its search. *)
Lemma insertParts_param_route (s name : string) h :
  strings.HasPrefix s ":" = false -> strings.HasPrefix s "*" = false ->
  insertParts emptyRoot [s; ":" ++ name] h =
  mkNode {[ s := mkNode {[ ":param" := mkNode ∅ h true false name ]}
                   None false false EmptyString ]}
         None false false EmptyString.
Proof.
  intros Hp Hw. cbn [insertParts]. rewrite partKey_literal, partKey_param by easy.
  cbn [emptyRoot children handler isParam isWillcard paramName].
  rewrite !lookup_empty. cbn [children handler isParam isWillcard paramName].
  now rewrite !insert_empty.
Qed.

Lemma search_param_route (s name v : string) h (name' : string) :
  v <> ":param" -> name <> EmptyString ->
  searchParts
    (mkNode {[ s := mkNode {[ ":param" := mkNode ∅ h true false name ]}
                      None false false name' ]}
            None false false EmptyString)
    [s; v] ∅ = (h, {[ name := v ]}).
Proof.
  intros Hv Hname.
  erewrite search_literal by apply lookup_singleton_eq.
  erewrite search_param;
    [|now apply lookup_singleton_ne|apply lookup_singleton_eq].
  cbn [paramName searchParts handler]. case_decide; [easy|].
  now rewrite insert_empty.
Qed.

Lemma bind_Returned {A B : Type} (a : A) (k : A -> outcome B) :
  (x ← Returned a; k x) = k a.
Proof. reflexivity. Qed.

(** [ServeHTTP] selects by [resolve] and calls by [respond]. *)
Lemma ServeHTTP_resolve r w req :
  ServeHTTP r w req = respond r (resolve r (Method req) (URL_Path req)) w req.
Proof.
  unfold ServeHTTP, resolve, respond. cbn zeta.
  destruct (staticRoutes r !! _) as [h|]; [easy|].
  destruct (dynamicRoutes r !! _) as [root|]; [|easy].
  now destruct (searchDynamicRoute _ _) as [[f|] params].
Qed.

(** Registrations leave alone the middleware and the entries of the static
    table that are not theirs. *)
Lemma AddRoutes_other r (routes : list Route) (key : string) :
  Forall (fun route => staticKey route <> Some key) routes ->
  exists r', AddRoutes r routes = Returned r' /\
             staticRoutes r' !! key = staticRoutes r !! key /\
             middleware r' = middleware r.
Proof.
  intros Hother. revert r.
  induction Hother as [|route routes Hroute _ IH]; intros r; cbn [AddRoutes]; [eauto|].
  unfold staticKey in Hroute. cbn zeta in Hroute.
  fold (isDynamic (strings.Trim (pattern route) "/")) in Hroute.
  destruct (isDynamic (strings.Trim (pattern route) "/")) eqn:Hd.
  - rewrite Router_AddRoute_dynamic, bind_Returned by easy.
    destruct (IH {| staticRoutes := staticRoutes r;
                    dynamicRoutes :=
                      <[method route :=
                          insertParts (rootOf r (method route))
                            (strings.Split (strings.Trim (pattern route) "/") "/")
                            (route_handler route)]> (dynamicRoutes r);
                    middleware := middleware r;
                    notFound := notFound r |})
      as (r' & Hr' & Hs & Hm).
    eauto.
  - rewrite Router_AddRoute_static, bind_Returned by easy.
    destruct (IH {| staticRoutes :=
                      <[method route ++ " " ++ strings.Trim (pattern route) "/" :=
                          route_handler route]> (staticRoutes r);
                    dynamicRoutes := dynamicRoutes r;
                    middleware := middleware r;
                    notFound := notFound r |})
      as (r' & Hr' & Hs & Hm).
    exists r'. split; [easy|]. split; [|easy].
    rewrite Hs. cbn [staticRoutes]. apply lookup_insert_ne. congruence.
Qed.

(** The trie of [/s/:x] after [/s/:y] is registered over it: the parameter
    node is found, not created, and keeps the name it was created with. *)
Lemma insertParts_param_route_again (s x y : string) h1 h2 :
  strings.HasPrefix s ":" = false -> strings.HasPrefix s "*" = false ->
  insertParts (insertParts emptyRoot [s; ":" ++ x] h1) [s; ":" ++ y] h2 =
  mkNode {[ s := mkNode {[ ":param" := mkNode ∅ h2 true false x ]}
                   None false false EmptyString ]}
         None false false EmptyString.
Proof.
  intros Hp Hw. rewrite insertParts_param_route by easy.
  cbn [insertParts]. rewrite partKey_literal, partKey_param by easy.
  cbn [children handler isParam isWillcard paramName].
  rewrite lookup_singleton_eq. cbn [children handler isParam isWillcard paramName].
  rewrite lookup_singleton_eq. cbn [children handler isParam isWillcard paramName].
  now rewrite !insert_singleton_eq.
Qed.

(** A router with middleware and no route. *)
Lemma rootOf_Uses_NewRouter (mws : list Middleware) method :
  rootOf (Uses NewRouter mws) method = emptyRoot.
Proof. unfold rootOf. now rewrite dynamicRoutes_Uses. Qed.

Lemma middleware_Uses_NewRouter (mws : list Middleware) :
  middleware (Uses NewRouter mws) = mws.
Proof. now rewrite middleware_Uses. Qed.

Lemma rootOf_insert r method root :
  rootOf {| staticRoutes := staticRoutes r;
            dynamicRoutes := <[method := root]> (dynamicRoutes r);
            middleware := middleware r;
            notFound := notFound r |} method = root.
Proof. unfold rootOf. cbn [dynamicRoutes]. now rewrite lookup_insert_eq. Qed.

(** Searching the segments a route was inserted at.  Literal segments are
    found again in any trie. *)
Lemma keyOf_literal (s : string) : literal s = true -> keyOf s = s.
Proof.
  intros Hs. apply literal_spec in Hs as (_ & Hp & Hw).
  unfold keyOf. now rewrite partKey_literal.
Qed.

Lemma paramName_insertParts current parts h :
  paramName (insertParts current parts h) = paramName current.
Proof. destruct parts; [easy|]. now rewrite insertParts_cons. Qed.

Lemma children_childAt current (part : string) :
  children current = ∅ -> children (childAt current part) = ∅.
Proof. unfold childAt. intros ->. now rewrite lookup_empty. Qed.

Lemma search_inserted_literals (post : list string) current h params :
  Forall (fun s => literal s = true) post ->
  searchParts (insertParts current post h) post params = (h, params).
Proof.
  intros Hpost. revert current.
  induction Hpost as [|s post Hs _ IH]; intros current; [easy|].
  rewrite insertParts_cons, keyOf_literal by easy.
  erewrite search_literal by (cbn [children]; apply lookup_insert_eq).
  apply IH.
Qed.

(** Below a literal prefix inserted into a node without children the search
    goes on in a node without children. *)
Lemma search_inserted_prefix (pre X Y : list string) h params result :
  Forall (fun s => literal s = true) pre ->
  (forall current, children current = ∅ ->
     searchParts (insertParts current X h) Y params = result) ->
  forall current, children current = ∅ ->
    searchParts (insertParts current (pre ++ X) h) (pre ++ Y) params = result.
Proof.
  intros Hpre Hend.
  induction Hpre as [|s pre Hs _ IH]; intros current Hcur; [now apply Hend|].
  cbn [app]. rewrite insertParts_cons, keyOf_literal by easy.
  erewrite search_literal by (cbn [children]; apply lookup_insert_eq).
  apply IH. now apply children_childAt.
Qed.

Lemma search_inserted_param (name v : string) (post : list string) current h params :
  children current = ∅ -> v <> ":param" -> name <> EmptyString ->
  Forall (fun s => literal s = true) post ->
  searchParts (insertParts current ((":" ++ name) :: post) h) (v :: post) params
  = (h, <[name := v]> params).
Proof.
  intros Hcur Hv Hname Hpost. rewrite insertParts_cons.
  change (keyOf (":" ++ name)) with ":param".
  rewrite (search_param _ v post params
             (insertParts (childAt current (":" ++ name)) post h)).
  - rewrite paramName_insertParts. unfold childAt.
    change (keyOf (":" ++ name)) with ":param".
    rewrite Hcur, lookup_empty. cbn [paramName]. rewrite partKey_param. cbn [snd].
    case_decide; [easy|]. now apply search_inserted_literals.
  - cbn [children]. rewrite Hcur, lookup_insert_ne by easy. apply lookup_empty.
  - cbn [children]. apply lookup_insert_eq.
Qed.

Lemma search_inserted_wildcard (a : string) (rest : list string) current h params :
  children current = ∅ -> a <> "*" ->
  searchParts (insertParts current ["*"] h) (a :: rest) params = (h, params).
Proof.
  intros Hcur Ha. rewrite insertParts_cons.
  change (keyOf "*") with "*".
  rewrite (search_wildcard _ a rest params (insertParts (childAt current "*") [] h)).
  - reflexivity.
  - cbn [children]. rewrite Hcur, lookup_insert_ne by easy. apply lookup_empty.
  - cbn [children]. rewrite Hcur, lookup_insert_ne by easy. apply lookup_empty.
  - cbn [children]. apply lookup_insert_eq.
Qed.

(** Dispatch on the router whose one route has one parameter,
    [method /pre.../:name/post... -> f]. *)
Lemma ServeHTTP_param_route (mws : list Middleware) (method : string)
    (pre : list string) (name : string) (post : list string) (v : string) f w req :
  Forall (fun s => literal s = true) pre -> Forall (fun s => literal s = true) post ->
  segment name = true -> segment v = true -> v <> ":param" ->
  Method req = method -> URL_Path req = pathOf (pre ++ v :: post) ->
  exists r,
    Router_AddRoute (Uses NewRouter mws) method
      (pathOf (pre ++ (":" ++ name) :: post)) (Some f) = Returned r
    /\ ServeHTTP r w req
        = call (composed mws (Some f)) w (withParams req {[ name := v ]}).
Proof.
  intros Hpre Hpost Hname Hv Hreserved Hmethod Hpath.
  assert (Hsegs : forall x, segment x = true ->
            Forall (fun s => segment s = true) (pre ++ x :: post)%list).
  { intros x Hx. apply Forall_app. split; [now apply literal_segments|].
    constructor; [easy|now apply literal_segments]. }
  assert (Hne : forall x : string, (pre ++ x :: post)%list <> [])
    by (intros x; now destruct pre).
  eexists. split.
  - apply Router_AddRoute_pattern; [now apply Hsegs, segment_param|easy|].
    unfold isDynamic.
    rewrite (Contains_concat _ (":" ++ name) ":"); [easy| |easy].
    apply in_or_app. right. now left.
  - rewrite (ServeHTTP_trie _ w req (pre ++ v :: post) f {[ name := v ]}).
    + cbn [middleware]. now rewrite middleware_Uses_NewRouter.
    + cbn [staticRoutes]. now rewrite staticRoutes_Uses.
    + now apply Hsegs.
    + easy.
    + easy.
    + rewrite Hmethod, rootOf_insert, rootOf_Uses_NewRouter.
      apply search_inserted_prefix; [easy| |easy].
      intros current Hcur. rewrite <- insert_empty.
      apply search_inserted_param; try easy. now apply segment_spec in Hname.
Qed.

(** Registration and selection see a path only through its trimmed form. *)
Lemma Router_AddRoute_Trim r method (p p' : string) h :
  strings.Trim p "/" = strings.Trim p' "/" ->
  Router_AddRoute r method p h = Router_AddRoute r method p' h.
Proof. unfold Router_AddRoute. cbn zeta. now intros ->. Qed.

Lemma resolve_Trim r method (q q' : string) :
  strings.Trim q "/" = strings.Trim q' "/" -> resolve r method q = resolve r method q'.
Proof. unfold resolve. cbn zeta. now intros ->. Qed.

(** Registering twice at one method and path is registering the second
    handler alone. *)
Lemma Router_AddRoute_twice r (method path : string) h1 h2 :
  (r1 ← Router_AddRoute r method path h1; Router_AddRoute r1 method path h2)
  = Router_AddRoute r method path h2.
Proof.
  destruct (isDynamic (strings.Trim path "/")) eqn:Hd.
  - rewrite (Router_AddRoute_dynamic r) by easy. rewrite bind_Returned.
    rewrite Router_AddRoute_dynamic by easy.
    rewrite rootOf_insert, insertParts_twice.
    cbn [staticRoutes dynamicRoutes middleware notFound].
    now rewrite insert_insert_eq, (Router_AddRoute_dynamic r method path h2).
  - rewrite (Router_AddRoute_static r) by easy. rewrite bind_Returned.
    rewrite Router_AddRoute_static by easy.
    cbn [staticRoutes dynamicRoutes middleware notFound].
    now rewrite insert_insert_eq, (Router_AddRoute_static r method path h2).
Qed.

(** A request that ends at the handler-less node of [s] on the router whose
    one route is [method /s/:name -> f]. *)
Lemma ServeHTTP_intermediate (mws : list Middleware) (method s name : string) f w req :
  literal s = true -> segment name = true ->
  Method req = method -> URL_Path req = pathOf [s] ->
  exists r,
    Router_AddRoute (Uses NewRouter mws) method (pathOf [s; ":" ++ name]) (Some f)
      = Returned r
    /\ resolve r method (URL_Path req) = Miss
    /\ ServeHTTP r w req = http_NotFound w req.
Proof.
  intros Hs Hname Hmethod Hpath.
  apply literal_spec in Hs as (Hs & Hp & Hw).
  assert (Hpat : Forall (fun s => segment s = true) [s; ":" ++ name])
    by (repeat constructor; [easy|now apply segment_param]).
  eexists. split; [|split].
  - apply Router_AddRoute_pattern; [easy|easy|]. apply isDynamic_param.
  - unfold resolve. cbn zeta. cbn [staticRoutes dynamicRoutes].
    rewrite staticRoutes_Uses, Hpath, Trim_pathOf by now repeat constructor.
    cbn [NewRouter staticRoutes]. rewrite lookup_empty, lookup_insert_eq.
    unfold searchDynamicRoute. rewrite Split_concat by now repeat constructor.
    rewrite rootOf_Uses_NewRouter, insertParts_param_route by easy.
    now erewrite search_literal by apply lookup_singleton_eq.
  - rewrite (ServeHTTP_trie_miss _ w req [s]).
    + cbn [notFound]. now rewrite notFound_Uses.
    + cbn [staticRoutes]. now rewrite staticRoutes_Uses.
    + now repeat constructor.
    + easy.
    + easy.
    + rewrite Hmethod, rootOf_insert, rootOf_Uses_NewRouter.
      rewrite insertParts_param_route by easy.
      now erewrite search_literal by apply lookup_singleton_eq.
Qed.

End TrieFacts.

(** ** The embedding on concrete inputs *)

Example Trim_slashes : strings.Trim "///a/b//" "/" = "a/b".
Proof. reflexivity. Qed.

Example Trim_only_slashes : strings.Trim "//" "/" = EmptyString.
Proof. reflexivity. Qed.

Example Split_keeps_empty_segments :
  strings.Split "a//b/" "/" = ["a"; EmptyString; "b"; EmptyString].
Proof. reflexivity. Qed.

Example Split_root : strings.Split EmptyString "/" = [EmptyString].
Proof. reflexivity. Qed.

(** [GET /users/42] on the router with [GET /users/:id]: the middleware
    around the handler, which finds [{id: 42}] under ["params"]. *)
Example users_42 :
  ServeHTTP usersRouter [] (GET "/users/42") =
  Returned [Pre "A"; Handled "h" (Some (ParamsValue {[ "id" := "42" ]})); Post "A"].
Proof. vm_compute. reflexivity. Qed.

(** A request segment equal to the reserved key [":param"] enters the
    parameter node as a literal child: the handler runs and nothing is
    bound. *)
Example users_reserved_key :
  ServeHTTP usersRouter [] (GET "/users/:param") =
  Returned [Pre "A"; Handled "h" (Some (ParamsValue ∅)); Post "A"].
Proof. vm_compute. reflexivity. Qed.

(** [GET /users] ends at the node of [users], which has no handler. *)
Example users_intermediate :
  ServeHTTP usersRouter [] (GET "/users") = Returned [StandardNotFound].
Proof. vm_compute. reflexivity. Qed.

(** A request segment equal to the reserved key ["*"] enters the wildcard
    node as a literal child, and the search goes on below it. *)
Example files_literal_star :
  (r ← Router_AddRoute NewRouter "GET" "/files/*" (tracing "h");
   ServeHTTP r [] (GET "/files/*/c")) = Returned [StandardNotFound].
Proof. vm_compute. reflexivity. Qed.

Example files_wildcard :
  (r ← Router_AddRoute NewRouter "GET" "/files/*" (tracing "h");
   ServeHTTP r [] (GET "/files/a/b/c")) =
  Returned [Handled "h" (Some (ParamsValue ∅))].
Proof. vm_compute. reflexivity. Qed.

(** A group of a new router, with or without middleware of its own, cannot
    add a route. *)
Example group_ping :
  Group_AddRoute (Router_Group NewRouter "api/v1") NewRouter "GET" "ping" (tracing "p")
  = Panicked (IndexOutOfRange 0 0).
Proof. reflexivity. Qed.

Example group_ping_with_middleware :
  Group_AddRoute (Group_Use (Router_Group NewRouter "/api/v1/") (logging "A"))
    NewRouter "GET" "ping" (tracing "p")
  = Panicked (IndexOutOfRange 1 1).
Proof. reflexivity. Qed.

(** ** The properties of the router *)

Section Claims.

Context `{HTTP}.

Implicit Types (r : Router) (h : HandlerFunc) (mws : list Middleware).

(** C1: [Group.AddRoute] should register the prefixed path with the handler
    wrapped by the group's middleware.  It does not: its loop starts at the
    index [len(g.middleware)], one past the last element, so every call
    panics with an index out of range before anything is registered, for
    every group, router, method, path and handler. *)
Theorem Group_AddRoute_panics (g : Group) r (method path : string) h :
  Group_AddRoute g r method path h =
  Panicked (IndexOutOfRange (Z.of_nat (length (g_middleware g)))
                            (Z.of_nat (length (g_middleware g)))).
Proof.
  unfold Group_AddRoute, wrapFrom.
  replace (Z.to_nat (Z.of_nat (length (g_middleware g)) + 1))
    with (S (length (g_middleware g))) by lia.
  now rewrite wrapDown_beyond.
Qed.

(** C2: the global middleware [m0, ..., mn-1], registered by [Use] in that
    order, wraps the handler the dispatch selected as [m0(m1(...mn-1(h)))]:
    [serveWithMiddleware] calls exactly that composition, whatever the router;
    [Use] keeps the registration order; with no middleware the handler itself
    is called.  On the tracing instance, logging middleware run their
    pre-logic in registration order, then the handler once, then their
    post-logic in the reverse order. *)
Theorem middleware_first_registered_outermost mws h w req :
  (forall r, serveWithMiddleware r h w req = call (composed (middleware r) h) w req)
  /\ middleware (Uses NewRouter mws) = mws
  /\ serveWithMiddleware (Uses NewRouter mws) h w req = call (composed mws h) w req
  /\ serveWithMiddleware NewRouter h w req = call h w req
  /\ (forall (names : list string) (name : string) (tw : list event) (treq : Request),
        serveWithMiddleware (H := trace_HTTP)
          (Uses NewRouter (map logging names)) (tracing name) tw treq =
        Returned (tw ++ map Pre names
                     ++ [Handled name (Value (ctx treq) "params")]
                     ++ map Post (rev names))%list).
Proof.
  assert (Hfresh : forall (H' : HTTP) (l : list (@Middleware H')),
             middleware (Uses NewRouter l) = l)
    by (intros; now rewrite middleware_Uses).
  split; [|split; [|split; [|split]]].
  - intros r. apply serveWithMiddleware_composed.
  - apply Hfresh.
  - now rewrite serveWithMiddleware_composed, Hfresh.
  - apply serveWithMiddleware_composed.
  - intros names name tw treq.
    rewrite serveWithMiddleware_composed, Hfresh. apply call_logging_chain.
Qed.

(** C4: a route whose trimmed path has no [:] and no [*] is served from the
    static table, which is consulted first: once it is registered on any
    router, whatever routes that router already has and whatever other routes
    are registered afterwards (every dynamic route, and every static route
    with another key), a request for that method and path selects that
    route's handler and calls it wrapped by the global middleware, with the
    request as it came. *)
Theorem static_route_has_priority r (method path : string) h
    (later : list Route) w req :
  isDynamic (strings.Trim path "/") = false ->
  Forall (fun route =>
            staticKey route <> Some (method ++ " " ++ strings.Trim path "/")) later ->
  Method req = method ->
  strings.Trim (URL_Path req) "/" = strings.Trim path "/" ->
  exists r1 r2,
    Router_AddRoute r method path h = Returned r1
    /\ AddRoutes r1 later = Returned r2
    /\ resolve r1 method (URL_Path req) = StaticHit h
    /\ resolve r2 method (URL_Path req) = StaticHit h
    /\ ServeHTTP r1 w req = call (composed (middleware r) h) w req
    /\ ServeHTTP r2 w req = call (composed (middleware r) h) w req.
Proof.
  intros Hstatic Hlater Hmethod Hpath.
  rewrite Router_AddRoute_static by easy.
  eexists. destruct (AddRoutes_other
    {| staticRoutes := <[method ++ " " ++ strings.Trim path "/" := h]> (staticRoutes r);
       dynamicRoutes := dynamicRoutes r;
       middleware := middleware r;
       notFound := notFound r |} later _ Hlater) as (r2 & Hr2 & Hs2 & Hm2).
  exists r2. split; [reflexivity|]. split; [exact Hr2|].
  cbn [staticRoutes middleware] in Hs2, Hm2. rewrite lookup_insert_eq in Hs2.
  assert (Hres1 : forall r',
            staticRoutes r' !! (method ++ " " ++ strings.Trim path "/") = Some h ->
            resolve r' method (URL_Path req) = StaticHit h).
  { intros r' Hr'. unfold resolve. cbn zeta. now rewrite Hpath, Hr'. }
  assert (Hserve : forall r', middleware r' = middleware r ->
            resolve r' method (URL_Path req) = StaticHit h ->
            ServeHTTP r' w req = call (composed (middleware r) h) w req).
  { intros r' Hm Hr'. rewrite ServeHTTP_resolve, Hmethod, Hr'. cbn [respond].
    now rewrite serveWithMiddleware_composed, Hm. }
  assert (Hfirst : staticRoutes
            {| staticRoutes :=
                 <[method ++ " " ++ strings.Trim path "/" := h]> (staticRoutes r);
               dynamicRoutes := dynamicRoutes r;
               middleware := middleware r;
               notFound := notFound r |}
            !! (method ++ " " ++ strings.Trim path "/") = Some h)
    by apply lookup_insert_eq.
  split; [now apply Hres1|]. split; [now apply Hres1|].
  split; apply Hserve; try easy; now apply Hres1.
Qed.

(** C5: in the trie search a literal child whose key is the request segment
    is entered in preference to the parameter child of the same node, and
    entering it binds nothing.  With [GET /users/me -> f1] and
    [GET /users/:id -> f2] registered in either order, [GET /users/me] calls
    [f1] (the literal route is static, so the static table serves it) with no
    parameter mapping attached; with the literal inside the trie,
    [GET /:v/users/me -> f1] against [GET /:v/users/:id -> f2], the request
    [GET /1/users/me] calls [f1] with [v] bound and [id] unbound. *)
Theorem literal_child_preferred (current child : node) (part : string)
    (rest : list string) (params : gmap string string) mws f1 f2 w req req' :
  children current !! part = Some child ->
  Method req = "GET" -> URL_Path req = "/users/me" ->
  Method req' = "GET" -> URL_Path req' = "/1/users/me" ->
  searchParts current (part :: rest) params = searchParts child rest params
  /\ (exists r,
        (r1 ← Router_AddRoute (Uses NewRouter mws) "GET" "/users/me" (Some f1);
         Router_AddRoute r1 "GET" "/users/:id" (Some f2)) = Returned r
        /\ ServeHTTP r w req = call (composed mws (Some f1)) w req)
  /\ (exists r,
        (r1 ← Router_AddRoute (Uses NewRouter mws) "GET" "/users/:id" (Some f2);
         Router_AddRoute r1 "GET" "/users/me" (Some f1)) = Returned r
        /\ ServeHTTP r w req = call (composed mws (Some f1)) w req)
  /\ (exists r,
        (r1 ← Router_AddRoute (Uses NewRouter mws) "GET" "/:v/users/me" (Some f1);
         Router_AddRoute r1 "GET" "/:v/users/:id" (Some f2)) = Returned r
        /\ ServeHTTP r w req'
            = call (composed mws (Some f1)) w (withParams req' {[ "v" := "1" ]})).
Proof.
  intros Hchild Hmethod Hpath Hmethod' Hpath'.
  assert (Hmws : middleware (Uses NewRouter mws) = mws)
    by now rewrite middleware_Uses.
  split; [now apply search_literal|].
  split; [|split].
  - rewrite Router_AddRoute_static, bind_Returned by reflexivity.
    rewrite Router_AddRoute_dynamic by reflexivity.
    eexists; split; [reflexivity|].
    rewrite (ServeHTTP_static _ w req (Some f1)).
    + rewrite serveWithMiddleware_composed. cbn [middleware]. now rewrite Hmws.
    + rewrite Hmethod, Hpath. cbn [staticRoutes]. apply lookup_insert_eq.
  - rewrite Router_AddRoute_dynamic, bind_Returned by reflexivity.
    rewrite Router_AddRoute_static by reflexivity.
    eexists; split; [reflexivity|].
    rewrite (ServeHTTP_static _ w req (Some f1)).
    + rewrite serveWithMiddleware_composed. cbn [middleware]. now rewrite Hmws.
    + rewrite Hmethod, Hpath. cbn [staticRoutes]. apply lookup_insert_eq.
  - rewrite Router_AddRoute_dynamic, bind_Returned by reflexivity.
    rewrite Router_AddRoute_dynamic by reflexivity.
    eexists; split; [reflexivity|].
    rewrite (ServeHTTP_trie _ w req' ["1"; "users"; "me"] f1 {[ "v" := "1" ]}).
    + cbn [middleware]. now rewrite Hmws.
    + cbn [staticRoutes]. now rewrite staticRoutes_Uses.
    + now repeat constructor.
    + easy.
    + easy.
    + rewrite Hmethod'. unfold rootOf. cbn [dynamicRoutes].
      rewrite !lookup_insert_eq, dynamicRoutes_Uses. cbn [default NewRouter dynamicRoutes].
      rewrite lookup_empty. vm_compute. reflexivity.
Qed.

(** C6: when the request segment finds neither a literal child nor a
    parameter child and the node has a wildcard child, the search returns the
    wildcard child's handler at once, with the parameters bound so far and
    without looking at the remaining segments.  On a router with the one
    route [method /pre.../* -> f], a request [method /pre.../a/rest...] calls
    [f] whatever the segments [rest] after [a] are, and however many, [a]
    being any segment other than the trie's reserved key ["*"].  With
    [pre = [files]], [a = a] and [rest = [b; c]] this is [GET /files/*]
    dispatched at [GET /files/a/b/c]. *)
Theorem wildcard_short_circuits (current child : node) (part : string)
    (remaining : list string) (params : gmap string string)
    mws (method : string) (pre : list string) (a : string) (rest : list string)
    f w req :
  children current !! part = None ->
  children current !! ":param" = None ->
  children current !! "*" = Some child ->
  Forall (fun s => literal s = true) pre ->
  Forall (fun x => segment x = true) (a :: rest) -> a <> "*" ->
  Method req = method -> URL_Path req = pathOf (pre ++ a :: rest) ->
  searchParts current (part :: remaining) params = (handler child, params)
  /\ exists r,
      Router_AddRoute (Uses NewRouter mws) method (pathOf (pre ++ ["*"])) (Some f)
        = Returned r
      /\ ServeHTTP r w req = call (composed mws (Some f)) w (withParams req ∅).
Proof.
  intros Hlit Hpar Hwild Hpre Hsegs Ha Hmethod Hpath.
  split; [now apply search_wildcard|].
  assert (Hpat : Forall (fun s => segment s = true) (pre ++ ["*"])%list).
  { apply Forall_app. split; [now apply literal_segments|now repeat constructor]. }
  assert (Hreq : Forall (fun s => segment s = true) (pre ++ a :: rest)%list).
  { apply Forall_app. split; [now apply literal_segments|easy]. }
  eexists. split.
  - apply Router_AddRoute_pattern; [easy|now destruct pre|].
    unfold isDynamic.
    rewrite (Contains_concat _ "*" "*"); [now rewrite orb_true_r| |easy].
    apply in_or_app. right. now left.
  - rewrite (ServeHTTP_trie _ w req (pre ++ a :: rest) f ∅).
    + cbn [middleware]. now rewrite middleware_Uses_NewRouter.
    + cbn [staticRoutes]. now rewrite staticRoutes_Uses.
    + easy.
    + now destruct pre.
    + easy.
    + rewrite Hmethod, rootOf_insert, rootOf_Uses_NewRouter.
      apply search_inserted_prefix; [easy| |easy].
      intros n Hn. now apply search_inserted_wildcard.
Qed.

(** C7: a dispatch that hits neither the static table nor a handler in the
    trie of its method selects nothing and calls the not-found fallback, with
    the request as it came and outside the middleware chain; a search that
    ends at a node without a handler is such a miss.  The fallback of a new
    router is the standard not-found handler, and [Use] and [AddRoute] keep
    it.  On the tracing instance the sink receives the standard not-found
    response once and nothing from the registered handler or middleware. *)
Theorem unmatched_dispatch_calls_notFound r w req
    mws (method s name : string) f w' req' :
  staticRoutes r !! (Method req ++ " " ++ strings.Trim (URL_Path req) "/") = None ->
  (dynamicRoutes r !! Method req = None \/
   exists root, dynamicRoutes r !! Method req = Some root /\
     (searchDynamicRoute root (strings.Trim (URL_Path req) "/")).1 = None) ->
  literal s = true -> segment name = true ->
  Method req' = method -> URL_Path req' = pathOf [s] ->
  resolve r (Method req) (URL_Path req) = Miss
  /\ ServeHTTP r w req = call (notFound r) w req
  /\ (exists r1,
        Router_AddRoute (Uses NewRouter mws) method (pathOf [s; ":" ++ name]) (Some f)
          = Returned r1
        /\ resolve r1 method (URL_Path req') = Miss
        /\ ServeHTTP r1 w' req' = http_NotFound w' req')
  /\ notFound (Uses NewRouter mws) = Some http_NotFound
  /\ (forall (m p : string) h,
        exists r', Router_AddRoute r m p h = Returned r' /\ notFound r' = notFound r)
  /\ (forall (names : list string) (tw : list event),
        exists r1 : @Router trace_HTTP,
          Router_AddRoute (Uses NewRouter (map logging names))
            "GET" (pathOf [s; ":" ++ name]) (tracing "h") = Returned r1
          /\ ServeHTTP r1 tw (GET (pathOf [s])) = Returned (tw ++ [StandardNotFound])%list).
Proof.
  intros Hstatic Hdyn Hs Hname Hmethod' Hpath'.
  assert (Hmiss : resolve r (Method req) (URL_Path req) = Miss).
  { unfold resolve. cbn zeta. rewrite Hstatic.
    destruct Hdyn as [->|(root & -> & Hsearch)]; [easy|].
    now destruct (searchDynamicRoute _ _) as [[g|] params]. }
  split; [easy|]. split; [now rewrite ServeHTTP_resolve, Hmiss|].
  split; [now apply ServeHTTP_intermediate|].
  split; [now rewrite notFound_Uses|]. split.
  - intros m p h. destruct (Router_AddRoute_returns r m p h) as (r' & Hr' & _ & Hnf).
    eauto.
  - intros names tw.
    destruct (ServeHTTP_intermediate (H := trace_HTTP) (map logging names) "GET" s name
                (tracing_body "h")
                tw (GET (pathOf [s]))) as (r1 & Hr1 & _ & Hserve); try easy.
    exists r1. split; easy.
Qed.

(** C9: a second registration at the same method and path returns, as every
    registration does, and leaves the router that registering the second
    handler alone gives: nothing of the first handler remains.  A request for
    a static route registered twice calls the second handler, and so does a
    request matching a dynamic route [/s/:name] registered twice. *)
Theorem duplicate_registration_overwrites r (method path : string) h1 h2
    (spath : string) w req mws (s name v : string) f1 f2 w' req' :
  isDynamic (strings.Trim spath "/") = false ->
  Method req = method -> strings.Trim (URL_Path req) "/" = strings.Trim spath "/" ->
  literal s = true -> segment name = true -> segment v = true -> v <> ":param" ->
  Method req' = method -> URL_Path req' = pathOf [s; v] ->
  (exists r2,
      (r1 ← Router_AddRoute r method path h1; Router_AddRoute r1 method path h2)
        = Returned r2
      /\ Router_AddRoute r method path h2 = Returned r2)
  /\ (exists r2,
        (r1 ← Router_AddRoute r method spath h1; Router_AddRoute r1 method spath h2)
          = Returned r2
        /\ resolve r2 method (URL_Path req) = StaticHit h2
        /\ ServeHTTP r2 w req = call (composed (middleware r) h2) w req)
  /\ (exists r2,
        (r1 ← Router_AddRoute (Uses NewRouter mws) method
                (pathOf [s; ":" ++ name]) (Some f1);
         Router_AddRoute r1 method (pathOf [s; ":" ++ name]) (Some f2))
          = Returned r2
        /\ ServeHTTP r2 w' req'
            = call (composed mws (Some f2)) w' (withParams req' {[ name := v ]})).
Proof.
  intros Hstatic Hmethod Hpath Hs Hname Hv Hreserved Hmethod' Hpath'.
  split; [|split].
  - rewrite Router_AddRoute_twice.
    destruct (Router_AddRoute_returns r method path h2) as (r2 & Hr2 & _). eauto.
  - rewrite Router_AddRoute_twice.
    rewrite Router_AddRoute_static by easy. eexists. split; [reflexivity|].
    assert (Hres : resolve
              {| staticRoutes :=
                   <[method ++ " " ++ strings.Trim spath "/" := h2]> (staticRoutes r);
                 dynamicRoutes := dynamicRoutes r;
                 middleware := middleware r;
                 notFound := notFound r |} method (URL_Path req) = StaticHit h2).
    { unfold resolve. cbn zeta. cbn [staticRoutes].
      now rewrite Hpath, lookup_insert_eq. }
    split; [easy|]. rewrite ServeHTTP_resolve, Hmethod, Hres. cbn [respond].
    now rewrite serveWithMiddleware_composed.
  - rewrite Router_AddRoute_twice.
    apply (ServeHTTP_param_route mws method [s] name [] v); try easy.
    now repeat constructor.
Qed.

(** C10: a parameter node keeps the name of the registration that created
    it.  After [method /a/:x -> f1] and then [method /a/:y -> f2] on a new
    router, a request [method /a/v] calls [f2] with [v] bound under [x]; when
    [y] differs from [x] nothing is bound under [y]. *)
Theorem param_name_fixed_by_first_registration mws (method a x y v : string)
    f1 f2 w req :
  literal a = true -> segment x = true -> segment y = true ->
  segment v = true -> v <> ":param" ->
  Method req = method -> URL_Path req = pathOf [a; v] ->
  exists r,
    (r1 ← Router_AddRoute (Uses NewRouter mws) method (pathOf [a; ":" ++ x]) (Some f1);
     Router_AddRoute r1 method (pathOf [a; ":" ++ y]) (Some f2)) = Returned r
    /\ resolve r method (URL_Path req) = DynamicHit f2 {[ x := v ]}
    /\ ServeHTTP r w req = call (composed mws (Some f2)) w (withParams req {[ x := v ]})
    /\ ({[ x := v ]} : gmap string string) !! y
       = (if decide (x = y) then Some v else None).
Proof.
  intros Ha Hx Hy Hv Hreserved Hmethod Hpath.
  apply literal_spec in Ha as (Ha & Hp & Hw).
  assert (Hsegs : forall n, segment n = true ->
            Forall (fun s => segment s = true) [a; ":" ++ n])
    by (intros n Hn; repeat constructor; [easy|now apply segment_param]).
  rewrite (Router_AddRoute_pattern _ method [a; ":" ++ x]);
    [|now apply Hsegs|easy|apply isDynamic_param].
  rewrite bind_Returned.
  rewrite (Router_AddRoute_pattern _ method [a; ":" ++ y]);
    [|now apply Hsegs|easy|apply isDynamic_param].
  rewrite rootOf_insert, rootOf_Uses_NewRouter.
  rewrite insertParts_param_route_again by easy.
  cbn [staticRoutes dynamicRoutes middleware notFound].
  rewrite insert_insert_eq.
  assert (Hsearch : searchParts
            (mkNode {[ a := mkNode {[ ":param" := mkNode ∅ (Some f2) true false x ]}
                              None false false EmptyString ]}
                    None false false EmptyString)
            [a; v] ∅ = (Some f2, {[ x := v ]})).
  { apply search_param_route; [easy|]. now apply segment_spec in Hx. }
  eexists. split; [reflexivity|]. split; [|split].
  - unfold resolve. cbn zeta. cbn [staticRoutes dynamicRoutes].
    rewrite staticRoutes_Uses, Hpath, Trim_pathOf by now repeat constructor.
    cbn [NewRouter staticRoutes]. rewrite lookup_empty, lookup_insert_eq.
    unfold searchDynamicRoute. rewrite Split_concat by now repeat constructor.
    now rewrite Hsearch.
  - rewrite (ServeHTTP_trie _ w req [a; v] f2 {[ x := v ]}).
    + cbn [middleware]. now rewrite middleware_Uses_NewRouter.
    + cbn [staticRoutes]. now rewrite staticRoutes_Uses.
    + now repeat constructor.
    + easy.
    + easy.
    + rewrite Hmethod. unfold rootOf. cbn [dynamicRoutes].
      now rewrite lookup_insert_eq.
  - apply lookup_singleton.
Qed.

End Claims.

(** ** The properties at work on the tracing router *)

Lemma static_route_has_priority_witness :
  exists r1 r2 : @Router trace_HTTP,
    Router_AddRoute NewRouter "GET" "/a/b/" (tracing "ab") = Returned r1
    /\ AddRoutes r1 [mkRoute "GET" "/a/:x" (tracing "x");
                     mkRoute "GET" "/:y/b" (tracing "y");
                     mkRoute "POST" "/a/b" (tracing "post")] = Returned r2
    /\ resolve r1 "GET" "a/b" = StaticHit (tracing "ab")
    /\ resolve r2 "GET" "a/b" = StaticHit (tracing "ab")
    /\ ServeHTTP r1 [] (GET "a/b")
       = call (composed (middleware NewRouter) (tracing "ab")) [] (GET "a/b")
    /\ ServeHTTP r2 [] (GET "a/b")
       = call (composed (middleware NewRouter) (tracing "ab")) [] (GET "a/b").
Proof.
  apply (static_route_has_priority (H := trace_HTTP) NewRouter "GET" "/a/b/"
           (tracing "ab")
           [mkRoute "GET" "/a/:x" (tracing "x");
            mkRoute "GET" "/:y/b" (tracing "y");
            mkRoute "POST" "/a/b" (tracing "post")] [] (GET "a/b"));
    try reflexivity.
  repeat constructor; discriminate.
Defined.

Lemma literal_child_preferred_witness :
  searchParts bothChildren ["me"; "x"] ∅
    = searchParts (mkNode ∅ (tracing "h1") false false EmptyString) ["x"] ∅
  /\ (exists r : @Router trace_HTTP,
        (r1 ← Router_AddRoute (Uses NewRouter [logging "A"]) "GET" "/users/me"
                (tracing "h1");
         Router_AddRoute r1 "GET" "/users/:id" (tracing "h2")) = Returned r
        /\ ServeHTTP r [] (GET "/users/me")
           = call (composed [logging "A"] (tracing "h1")) [] (GET "/users/me"))
  /\ (exists r : @Router trace_HTTP,
        (r1 ← Router_AddRoute (Uses NewRouter [logging "A"]) "GET" "/users/:id"
                (tracing "h2");
         Router_AddRoute r1 "GET" "/users/me" (tracing "h1")) = Returned r
        /\ ServeHTTP r [] (GET "/users/me")
           = call (composed [logging "A"] (tracing "h1")) [] (GET "/users/me"))
  /\ (exists r : @Router trace_HTTP,
        (r1 ← Router_AddRoute (Uses NewRouter [logging "A"]) "GET" "/:v/users/me"
                (tracing "h1");
         Router_AddRoute r1 "GET" "/:v/users/:id" (tracing "h2")) = Returned r
        /\ ServeHTTP r [] (GET "/1/users/me")
           = call (composed [logging "A"] (tracing "h1")) []
               (withParams (GET "/1/users/me") {[ "v" := "1" ]})).
Proof.
  apply (literal_child_preferred (H := trace_HTTP) bothChildren
           (mkNode ∅ (tracing "h1") false false EmptyString) "me" ["x"] ∅
           [logging "A"] (tracing_body "h1") (tracing_body "h2") []
           (GET "/users/me") (GET "/1/users/me"));
    reflexivity.
Defined.

Lemma wildcard_short_circuits_witness :
  searchParts onlyWildcard ["a"; "b"; "c"] ∅ = (tracing "h", ∅)
  /\ exists r : @Router trace_HTTP,
      Router_AddRoute (Uses NewRouter [logging "A"]) "GET" "/files/*" (tracing "h")
        = Returned r
      /\ ServeHTTP r [] (GET "/files/a/b/c")
         = call (composed [logging "A"] (tracing "h")) []
             (withParams (GET "/files/a/b/c") ∅).
Proof.
  apply (wildcard_short_circuits (H := trace_HTTP) onlyWildcard
           (mkNode ∅ (tracing "h") false true EmptyString) "a" ["b"; "c"] ∅
           [logging "A"] "GET" ["files"] "a" ["b"; "c"] (tracing_body "h") []
           (GET "/files/a/b/c"));
    try reflexivity.
  - now repeat constructor.
  - now repeat constructor.
  - discriminate.
Defined.

Lemma unmatched_dispatch_calls_notFound_witness :
  resolve usersRouter "GET" "/users" = Miss
  /\ ServeHTTP usersRouter [] (GET "/users") = call (notFound usersRouter) [] (GET "/users")
  /\ (exists r1 : @Router trace_HTTP,
        Router_AddRoute (Uses NewRouter [logging "A"]) "GET" "/users/:id" (tracing "h")
          = Returned r1
        /\ resolve r1 "GET" "/users" = Miss
        /\ ServeHTTP r1 [] (GET "/users") = http_NotFound [] (GET "/users"))
  /\ notFound (Uses NewRouter [logging "A"]) = Some http_NotFound
  /\ (forall (m p : string) h,
        exists r', Router_AddRoute usersRouter m p h = Returned r'
                   /\ notFound r' = notFound usersRouter)
  /\ (forall (names : list string) (tw : list event),
        exists r1 : @Router trace_HTTP,
          Router_AddRoute (Uses NewRouter (map logging names))
            "GET" "/users/:id" (tracing "h") = Returned r1
          /\ ServeHTTP r1 tw (GET "/users") = Returned (tw ++ [StandardNotFound])%list).
Proof.
  apply (unmatched_dispatch_calls_notFound (H := trace_HTTP) usersRouter []
           (GET "/users") [logging "A"] "GET" "users" "id" (tracing_body "h") []
           (GET "/users"));
    try reflexivity.
  right. exists (insertParts emptyRoot ["users"; ":id"] (tracing "h")).
  split; reflexivity.
Defined.

Lemma duplicate_registration_overwrites_witness :
  (exists r2 : @Router trace_HTTP,
      (r1 ← Router_AddRoute NewRouter "GET" "/files/*" (tracing "h1");
       Router_AddRoute r1 "GET" "/files/*" (tracing "h2")) = Returned r2
      /\ Router_AddRoute NewRouter "GET" "/files/*" (tracing "h2") = Returned r2)
  /\ (exists r2 : @Router trace_HTTP,
        (r1 ← Router_AddRoute NewRouter "GET" "/a/b" (tracing "h1");
         Router_AddRoute r1 "GET" "/a/b" (tracing "h2")) = Returned r2
        /\ resolve r2 "GET" "a/b" = StaticHit (tracing "h2")
        /\ ServeHTTP r2 [] (GET "a/b")
           = call (composed (middleware NewRouter) (tracing "h2")) [] (GET "a/b"))
  /\ (exists r2 : @Router trace_HTTP,
        (r1 ← Router_AddRoute (Uses NewRouter [logging "A"]) "GET" "/users/:id"
                (tracing "h1");
         Router_AddRoute r1 "GET" "/users/:id" (tracing "h2")) = Returned r2
        /\ ServeHTTP r2 [] (GET "/users/42")
           = call (composed [logging "A"] (tracing "h2")) []
               (withParams (GET "/users/42") {[ "id" := "42" ]})).
Proof.
  apply (duplicate_registration_overwrites (H := trace_HTTP) NewRouter "GET"
           "/files/*" (tracing "h1") (tracing "h2") "/a/b" [] (GET "a/b")
           [logging "A"] "users" "id" "42" (tracing_body "h1") (tracing_body "h2")
           [] (GET "/users/42"));
    try reflexivity.
  discriminate.
Defined.

Lemma param_name_fixed_by_first_registration_witness :
  exists r : @Router trace_HTTP,
    (r1 ← Router_AddRoute (Uses NewRouter [logging "A"]) "GET" "/a/:x" (tracing "h1");
     Router_AddRoute r1 "GET" "/a/:y" (tracing "h2")) = Returned r
    /\ resolve r "GET" "/a/v" = DynamicHit (tracing_body "h2") {[ "x" := "v" ]}
    /\ ServeHTTP r [] (GET "/a/v")
       = call (composed [logging "A"] (tracing "h2")) []
           (withParams (GET "/a/v") {[ "x" := "v" ]})
    /\ ({[ "x" := "v" ]} : gmap string string) !! "y"
       = (if decide ("x" = "y") then Some "v" else None).
Proof.
  apply (param_name_fixed_by_first_registration (H := trace_HTTP) [logging "A"]
           "GET" "a" "x" "y" "v" (tracing_body "h1") (tracing_body "h2") []
           (GET "/a/v"));
    try reflexivity.
  discriminate.
Defined.

(** ** Routes with any number of parameters *)

Lemma pseg_ok_Par (name v : string) :
  pseg_ok (Par name v) = true ->
  strings.Contains name "/" = false /\ segment v = true /\ v <> ":param".
Proof.
  cbn [pseg_ok]. rewrite !andb_true_iff, !negb_true_iff.
  intros [[Hn Hv] Hr]. repeat split; try easy. now apply String.eqb_neq.
Qed.

Lemma segment_patternOf (x : pseg) : pseg_ok x = true -> segment (patternOf x) = true.
Proof.
  destruct x as [s|name v]; cbn [patternOf].
  - intros Hs. now apply literal_spec in Hs.
  - intros Hx. apply pseg_ok_Par in Hx as (Hn & _ & _). now apply segment_spec.
Qed.

Lemma segment_requestOf (x : pseg) : pseg_ok x = true -> segment (requestOf x) = true.
Proof.
  destruct x as [s|name v]; cbn [requestOf].
  - intros Hs. now apply literal_spec in Hs.
  - intros Hx. now apply pseg_ok_Par in Hx as (_ & Hv & _).
Qed.

Lemma segments_patternOf (pat : list pseg) :
  Forall (fun x => pseg_ok x = true) pat ->
  Forall (fun s => segment s = true) (map patternOf pat).
Proof.
  induction 1 as [|x pat Hx _ IH]; constructor; [|easy]. now apply segment_patternOf.
Qed.

Lemma segments_requestOf (pat : list pseg) :
  Forall (fun x => pseg_ok x = true) pat ->
  Forall (fun s => segment s = true) (map requestOf pat).
Proof.
  induction 1 as [|x pat Hx _ IH]; constructor; [|easy]. now apply segment_requestOf.
Qed.

Lemma bindings_literals (segs : list string) (params : gmap string string) :
  bindings (map Lit segs) params = params.
Proof. induction segs as [|s segs IH]; [easy|]. exact IH. Qed.

Lemma pseg_wf_Par (name v : string) :
  pseg_wf (Par name v) = true ->
  strings.Contains name "/" = false /\ segment v = true.
Proof. cbn [pseg_wf]. rewrite andb_true_iff, negb_true_iff. tauto. Qed.

Lemma wf_segments_patternOf (pat : list pseg) :
  Forall (fun x => pseg_wf x = true) pat ->
  Forall (fun s => segment s = true) (map patternOf pat).
Proof.
  induction 1 as [|x pat Hx _ IH]; constructor; [|easy].
  destruct x as [s|name v]; cbn [patternOf].
  - now apply literal_spec in Hx.
  - apply pseg_wf_Par in Hx as [Hn _]. now apply segment_spec.
Qed.

Lemma wf_segments_requestOf (pat : list pseg) :
  Forall (fun x => pseg_wf x = true) pat ->
  Forall (fun s => segment s = true) (map requestOf pat).
Proof.
  induction 1 as [|x pat Hx _ IH]; constructor; [|easy].
  destruct x as [s|name v]; cbn [requestOf].
  - now apply literal_spec in Hx.
  - now apply pseg_wf_Par in Hx as [_ Hv].
Qed.

Lemma bound_cons_Par (name v : string) (pat : list pseg) (params : gmap string string) :
  bound (Par name v :: pat) params
  = bound pat (if decide (v = ":param") then params
               else if decide (name = EmptyString) then params
               else <[name := v]> params).
Proof. reflexivity. Qed.

Section PatternFacts.

Context `{HTTP}.

Implicit Types (r : Router) (h : HandlerFunc) (current : node).

Lemma blank_emptyRoot : blank emptyRoot.
Proof. now split. Qed.

Lemma blank_childAt current (part : string) : blank current -> blank (childAt current part).
Proof. intros [Hc _]. unfold childAt. rewrite Hc, lookup_empty. now split. Qed.

(** The search of a request along the route just inserted below a blank
    node binds the parameters of the route and goes on, below the route, in
    a blank node. *)
Lemma search_inserted_pattern (pat : list pseg) (X Y : list string) h
    (result : gmap string string -> HandlerFunc * gmap string string) :
  Forall (fun x => pseg_ok x = true) pat ->
  (forall current params, blank current ->
     searchParts (insertParts current X h) Y params = result params) ->
  forall current params, blank current ->
    searchParts (insertParts current (map patternOf pat ++ X) h)
      (map requestOf pat ++ Y) params
    = result (bindings pat params).
Proof.
  intros Hpat Hend.
  induction Hpat as [|x pat Hx _ IH]; intros current params Hcur; [now apply Hend|].
  destruct x as [s|name v]; cbn [map app patternOf requestOf].
  - rewrite insertParts_cons, keyOf_literal by easy.
    erewrite search_literal by (cbn [children]; apply lookup_insert_eq).
    rewrite IH by now apply blank_childAt. reflexivity.
  - apply pseg_ok_Par in Hx as (Hn & Hv & Hr). destruct Hcur as [Hc Hh].
    rewrite insertParts_cons. change (keyOf (":" ++ name)) with ":param".
    rewrite (search_param _ v _ params
               (insertParts (childAt current (":" ++ name))
                  (map patternOf pat ++ X) h)).
    + assert (Hname : paramName (childAt current (":" ++ name)) = name).
      { unfold childAt. change (keyOf (":" ++ name)) with ":param".
        now rewrite Hc, lookup_empty. }
      rewrite paramName_insertParts, Hname, IH by now apply blank_childAt.
      reflexivity.
    + cbn [children]. rewrite Hc, lookup_insert_ne by easy. apply lookup_empty.
    + cbn [children]. apply lookup_insert_eq.
Qed.

(** The same for any values: a value equal to the reserved key is found by
    the literal lookup, and the search goes on below the parameter node with
    nothing bound. *)
Lemma search_inserted_route (pat : list pseg) (X Y : list string) h
    (result : gmap string string -> HandlerFunc * gmap string string) :
  Forall (fun x => pseg_wf x = true) pat ->
  (forall current params, blank current ->
     searchParts (insertParts current X h) Y params = result params) ->
  forall current params, blank current ->
    searchParts (insertParts current (map patternOf pat ++ X) h)
      (map requestOf pat ++ Y) params
    = result (bound pat params).
Proof.
  intros Hpat Hend.
  induction Hpat as [|x pat Hx _ IH]; intros current params Hcur; [now apply Hend|].
  destruct x as [s|name v]; cbn [map app patternOf requestOf].
  - rewrite insertParts_cons, keyOf_literal by easy.
    erewrite search_literal by (cbn [children]; apply lookup_insert_eq).
    rewrite IH by now apply blank_childAt. reflexivity.
  - apply pseg_wf_Par in Hx as (Hn & Hv). destruct Hcur as [Hc Hh].
    rewrite insertParts_cons, bound_cons_Par.
    change (keyOf (":" ++ name)) with ":param".
    destruct (decide (v = ":param")) as [->|Hr].
    + erewrite search_literal by (cbn [children]; apply lookup_insert_eq).
      apply IH. now apply blank_childAt.
    + rewrite (search_param _ v _ params
                 (insertParts (childAt current (":" ++ name))
                    (map patternOf pat ++ X) h)).
      * assert (Hname : paramName (childAt current (":" ++ name)) = name).
        { unfold childAt. change (keyOf (":" ++ name)) with ":param".
          now rewrite Hc, lookup_empty. }
        rewrite paramName_insertParts, Hname. apply IH. now apply blank_childAt.
      * cbn [children]. rewrite Hc, lookup_insert_ne by easy. apply lookup_empty.
      * cbn [children]. apply lookup_insert_eq.
Qed.

Lemma search_below_route (extra : string) (more : list string) current h params :
  blank current ->
  searchParts (insertParts current [] h) (extra :: more) params = (None, ∅).
Proof.
  intros [Hc _]. apply search_unmatched; cbn [insertParts children];
    rewrite Hc; apply lookup_empty.
Qed.

(** Selection on a router without static routes. *)
Lemma resolve_trie r (method : string) (path : string) (segs : list string) :
  staticRoutes r = ∅ ->
  Forall (fun s => segment s = true) segs -> segs <> [] ->
  path = pathOf segs ->
  resolve r method path =
  match searchParts (rootOf r method) segs ∅ with
  | (Some f, params) => DynamicHit f params
  | (None, _) => Miss
  end.
Proof.
  intros Hstatic Hsegs Hne ->. unfold resolve, rootOf. cbn zeta.
  rewrite Hstatic, lookup_empty, Trim_pathOf by easy.
  unfold searchDynamicRoute. rewrite Split_concat by easy.
  destruct (dynamicRoutes r !! method) as [root|]; [easy|].
  destruct segs as [|part rest]; [easy|].
  cbn [default]. now rewrite searchParts_emptyRoot.
Qed.

(** Dispatch on the router whose one route is [method pattern -> h], for a
    request whose segments the search takes to [found]. *)
Lemma fresh_route_dispatch (mws : list Middleware) (method : string)
    (psegs rsegs : list string) h (found : HandlerFunc * gmap string string) w req :
  Forall (fun s => segment s = true) psegs -> psegs <> [] ->
  isDynamic (String.concat "/" psegs) = true ->
  Forall (fun s => segment s = true) rsegs -> rsegs <> [] ->
  Method req = method -> URL_Path req = pathOf rsegs ->
  searchParts (insertParts emptyRoot psegs h) rsegs ∅ = found ->
  exists r,
    Router_AddRoute (Uses NewRouter mws) method (pathOf psegs) h = Returned r
    /\ resolve r method (URL_Path req)
        = match found with
          | (Some f, params) => DynamicHit f params
          | (None, _) => Miss
          end
    /\ ServeHTTP r w req
        = match found with
          | (Some f, params) =>
              call (composed mws (Some f)) w (withParams req params)
          | (None, _) => http_NotFound w req
          end.
Proof.
  intros Hpsegs Hpne Hdyn Hrsegs Hrne Hmethod Hpath Hsearch.
  eexists. split; [now apply Router_AddRoute_pattern|].
  match goal with
  | |- resolve ?r _ _ = _ /\ _ =>
      assert (Hres : resolve r method (URL_Path req)
                     = match found with
                       | (Some f, params) => DynamicHit f params
                       | (None, _) => Miss
                       end)
  end.
  { rewrite (resolve_trie _ method _ rsegs); try easy.
    - now rewrite rootOf_insert, rootOf_Uses_NewRouter, Hsearch.
    - cbn [staticRoutes]. now rewrite staticRoutes_Uses. }
  split; [exact Hres|].
  rewrite ServeHTTP_resolve, Hmethod, Hres.
  destruct found as [[f|] params]; cbn [respond].
  - rewrite serveWithMiddleware_composed. cbn [middleware].
    now rewrite middleware_Uses_NewRouter.
  - cbn [notFound]. now rewrite notFound_Uses.
Qed.

End PatternFacts.

Lemma map_patternOf_Lit (segs : list string) : map patternOf (map Lit segs) = segs.
Proof. induction segs as [|s segs IH]; [easy|]. cbn. now rewrite IH. Qed.

Lemma map_requestOf_Lit (segs : list string) : map requestOf (map Lit segs) = segs.
Proof. induction segs as [|s segs IH]; [easy|]. cbn. now rewrite IH. Qed.

Lemma pseg_ok_Lit (segs : list string) :
  Forall (fun s => literal s = true) segs ->
  Forall (fun x => pseg_ok x = true) (map Lit segs).
Proof. induction 1 as [|s segs Hs _ IH]; constructor; easy. Qed.

(** ** Further properties of the router *)

Section FurtherProperties.

Context `{HTTP}.

Implicit Types (r : Router) (h : HandlerFunc) (mws : list Middleware).

(** On a router with any global middleware and one dynamic route of literal
    and parameter segments, in any number and order, a request that has the
    literal segments of the route and any segment as the value of each
    parameter calls the handler of the route with every named parameter
    bound to its value, but for a value equal to the reserved key
    [":param"], which binds nothing; where two parameters have the same
    name, the value of the later one is the one bound. *)
Theorem route_binds_every_parameter mws (method : string) (pat : list pseg) f w req :
  Forall (fun x => pseg_wf x = true) pat -> pat <> [] ->
  isDynamic (String.concat "/" (map patternOf pat)) = true ->
  Method req = method -> URL_Path req = pathOf (map requestOf pat) ->
  exists r,
    Router_AddRoute (Uses NewRouter mws) method (pathOf (map patternOf pat)) (Some f)
      = Returned r
    /\ resolve r method (URL_Path req) = DynamicHit f (bound pat ∅)
    /\ ServeHTTP r w req
       = call (composed mws (Some f)) w (withParams req (bound pat ∅)).
Proof.
  intros Hpat Hne Hdyn Hmethod Hpath.
  pose proof (search_inserted_route pat [] [] (Some f) (fun ps => (Some f, ps))
                Hpat (fun current params _ => eq_refl) emptyRoot ∅ blank_emptyRoot)
    as Hsearch.
  rewrite !app_nil_r in Hsearch.
  apply (fresh_route_dispatch mws method (map patternOf pat) (map requestOf pat)
           (Some f) (Some f, bound pat ∅) w req); try easy.
  - now apply wf_segments_patternOf.
  - now destruct pat.
  - now apply wf_segments_requestOf.
  - now destruct pat.
Qed.

(** A wildcard at the end of such a route matches from its position on: a
    request with the segments of the route and at least one more segment,
    other than the reserved key ["*"], calls the handler with the parameters
    bound before the wildcard, whatever follows. *)
Theorem wildcard_keeps_bound_parameters mws (method : string) (pat : list pseg)
    (a : string) (rest : list string) f w req :
  Forall (fun x => pseg_ok x = true) pat ->
  Forall (fun s => segment s = true) (a :: rest) -> a <> "*" ->
  Method req = method -> URL_Path req = pathOf (map requestOf pat ++ a :: rest) ->
  exists r,
    Router_AddRoute (Uses NewRouter mws) method
      (pathOf (map patternOf pat ++ ["*"])) (Some f) = Returned r
    /\ resolve r method (URL_Path req) = DynamicHit f (bindings pat ∅)
    /\ ServeHTTP r w req
       = call (composed mws (Some f)) w (withParams req (bindings pat ∅)).
Proof.
  intros Hpat Hsegs Ha Hmethod Hpath.
  apply (fresh_route_dispatch mws method (map patternOf pat ++ ["*"])
           (map requestOf pat ++ a :: rest)
           (Some f) (Some f, bindings pat ∅) w req); try easy.
  - apply Forall_app. split; [now apply segments_patternOf|now repeat constructor].
  - now destruct (map patternOf pat).
  - unfold isDynamic.
    rewrite (Contains_concat _ "*" "*"); [now rewrite orb_true_r| |easy].
    apply in_or_app. right. now left.
  - apply Forall_app. split; [now apply segments_requestOf|easy].
  - now destruct (map requestOf pat).
  - apply (search_inserted_pattern pat ["*"] (a :: rest) (Some f)
             (fun ps => (Some f, ps))); [easy| |apply blank_emptyRoot].
    intros current params [Hc _]. now apply search_inserted_wildcard.
Qed.

(** A route without a wildcard matches requests of exactly its number of
    segments: on the router with that one route, a request that goes on
    after the last segment of the route, and a request that stops before it,
    select nothing and get the not-found response. *)
Theorem route_needs_exact_segments mws (method : string)
    (pre : list pseg) (x : pseg) (post : list pseg)
    (extra : string) (more : list string) f w req w' req' :
  Forall (fun x => pseg_ok x = true) (pre ++ x :: post) -> pre <> [] ->
  isDynamic (String.concat "/" (map patternOf (pre ++ x :: post))) = true ->
  Forall (fun s => segment s = true) (extra :: more) ->
  Method req = method ->
  URL_Path req = pathOf (map requestOf (pre ++ x :: post) ++ extra :: more) ->
  Method req' = method -> URL_Path req' = pathOf (map requestOf pre) ->
  exists r,
    Router_AddRoute (Uses NewRouter mws) method
      (pathOf (map patternOf (pre ++ x :: post))) (Some f) = Returned r
    /\ resolve r method (URL_Path req) = Miss
    /\ ServeHTTP r w req = http_NotFound w req
    /\ resolve r method (URL_Path req') = Miss
    /\ ServeHTTP r w' req' = http_NotFound w' req'.
Proof.
  intros Hpat Hpre Hdyn Hsegs Hmethod Hpath Hmethod' Hpath'.
  assert (Hpat' : Forall (fun x => pseg_ok x = true) pre)
    by (apply Forall_app in Hpat; easy).
  assert (Hne : map patternOf (pre ++ x :: post) <> [])
    by (destruct pre; easy).
  destruct (fresh_route_dispatch mws method (map patternOf (pre ++ x :: post))
              (map requestOf (pre ++ x :: post) ++ extra :: more)
              (Some f) (None, ∅) w req) as (r & Hr & Hres & Hserve); try easy.
  { now apply segments_patternOf. }
  { apply Forall_app. split; [now apply segments_requestOf|easy]. }
  { now destruct (map requestOf (pre ++ x :: post)). }
  { rewrite <- (app_nil_r (map patternOf (pre ++ x :: post))).
    apply (search_inserted_pattern (pre ++ x :: post) [] (extra :: more) (Some f)
             (fun _ => (None, ∅))); [easy| |apply blank_emptyRoot].
    intros current params Hcur. now apply search_below_route. }
  destruct (fresh_route_dispatch mws method (map patternOf (pre ++ x :: post))
              (map requestOf pre)
              (Some f) (None, bindings pre ∅) w' req')
    as (r' & Hr' & Hres' & Hserve'); try easy.
  { now apply segments_patternOf. }
  { now apply segments_requestOf. }
  { now destruct pre. }
  { rewrite map_app, <- (app_nil_r (map requestOf pre)).
    apply (search_inserted_pattern pre (map patternOf (x :: post)) [] (Some f)
             (fun ps => (None, ps))); [easy| |apply blank_emptyRoot].
    intros current params [_ Hh]. cbn [map]. rewrite insertParts_cons.
    cbn [searchParts handler]. now rewrite Hh. }
  rewrite Hr in Hr'. injection Hr' as <-.
  exists r. easy.
Qed.

(** The request for the root, whose trimmed path is the empty string, has
    one empty segment, and a parameter takes it: on the router whose one route
    is [method /:name], the request calls the handler with [name] bound to
    the empty string. *)
Theorem root_request_binds_empty_value mws (method name : string) f w req :
  segment name = true ->
  Method req = method -> strings.Trim (URL_Path req) "/" = EmptyString ->
  exists r,
    Router_AddRoute (Uses NewRouter mws) method (pathOf [":" ++ name]) (Some f)
      = Returned r
    /\ ServeHTTP r w req
       = call (composed mws (Some f)) w (withParams req {[ name := EmptyString ]}).
Proof.
  intros Hname Hmethod Htrim.
  eexists. split.
  - apply Router_AddRoute_pattern; [|easy|].
    + repeat constructor. now apply segment_param.
    + unfold isDynamic. cbn. reflexivity.
  - rewrite (ServeHTTP_dynamic _ w req
               (insertParts emptyRoot [":" ++ name] (Some f)) f
               {[ name := EmptyString ]}).
    + rewrite serveWithMiddleware_composed. cbn [middleware].
      now rewrite middleware_Uses_NewRouter.
    + cbn [staticRoutes]. rewrite staticRoutes_Uses. apply lookup_empty.
    + cbn [dynamicRoutes]. rewrite Hmethod, rootOf_Uses_NewRouter.
      apply lookup_insert_eq.
    + unfold searchDynamicRoute. rewrite Htrim. cbn [strings.Split].
      rewrite <- insert_empty. apply search_inserted_param; try easy.
      now apply segment_spec in Hname.
Qed.

(** A [nil] handler is registered like any other.  On a static route it is
    selected and, on a router without middleware, calling it panics; on a
    dynamic route the search finds it, the dispatcher takes it for no match
    and the request gets the not-found response. *)
Theorem nil_handler_static_panics_dynamic_misses r (method spath : string) w req
    mws (method' : string) (pat : list pseg) w' req' :
  middleware r = [] ->
  isDynamic (strings.Trim spath "/") = false ->
  Method req = method ->
  strings.Trim (URL_Path req) "/" = strings.Trim spath "/" ->
  Forall (fun x => pseg_ok x = true) pat -> pat <> [] ->
  isDynamic (String.concat "/" (map patternOf pat)) = true ->
  Method req' = method' -> URL_Path req' = pathOf (map requestOf pat) ->
  (exists r1,
      Router_AddRoute r method spath None = Returned r1
      /\ resolve r1 method (URL_Path req) = StaticHit None
      /\ ServeHTTP r1 w req = Panicked NilDereference)
  /\ (exists r2,
        Router_AddRoute (Uses NewRouter mws) method' (pathOf (map patternOf pat)) None
          = Returned r2
        /\ resolve r2 method' (URL_Path req') = Miss
        /\ ServeHTTP r2 w' req' = http_NotFound w' req').
Proof.
  intros Hmws Hstatic Hmethod Hpath Hpat Hne Hdyn Hmethod' Hpath'. split.
  - rewrite Router_AddRoute_static by easy. eexists. split; [reflexivity|].
    match goal with
    | |- resolve ?r1 _ _ = _ /\ _ =>
        assert (Hres : resolve r1 method (URL_Path req) = StaticHit None)
    end.
    { unfold resolve. cbn zeta. cbn [staticRoutes].
      now rewrite Hpath, lookup_insert_eq. }
    split; [exact Hres|].
    rewrite ServeHTTP_resolve, Hmethod, Hres. cbn [respond].
    rewrite serveWithMiddleware_composed. cbn [middleware]. now rewrite Hmws.
  - pose proof (search_inserted_pattern pat [] [] None (fun ps => (None, ps))
                  Hpat (fun current params _ => eq_refl) emptyRoot ∅ blank_emptyRoot)
      as Hsearch.
    rewrite !app_nil_r in Hsearch.
    apply (fresh_route_dispatch mws method' (map patternOf pat) (map requestOf pat)
             None (None, bindings pat ∅) w' req'); try easy.
    + now apply segments_patternOf.
    + now destruct pat.
    + now apply segments_requestOf.
    + now destruct pat.
Qed.

(** A route of literal segments one of which has a [:] or a [*] inside is
    classified as dynamic.  It is still reached at its own path, through the
    trie, and its handler receives an empty parameter mapping, which the
    handler of a static route does not. *)
Theorem marker_inside_literal_route mws (method : string) (segs : list string) f w req :
  Forall (fun s => literal s = true) segs -> segs <> [] ->
  isDynamic (String.concat "/" segs) = true ->
  Method req = method -> URL_Path req = pathOf segs ->
  exists r,
    Router_AddRoute (Uses NewRouter mws) method (pathOf segs) (Some f) = Returned r
    /\ staticRoutes r = ∅
    /\ resolve r method (URL_Path req) = DynamicHit f ∅
    /\ ServeHTTP r w req = call (composed mws (Some f)) w (withParams req ∅).
Proof.
  intros Hsegs Hne Hdyn Hmethod Hpath.
  pose proof (search_inserted_pattern (map Lit segs) [] [] (Some f)
                (fun ps => (Some f, ps)) (pseg_ok_Lit segs Hsegs)
                (fun current params _ => eq_refl) emptyRoot ∅ blank_emptyRoot)
    as Hsearch.
  rewrite !app_nil_r, map_patternOf_Lit, map_requestOf_Lit, bindings_literals in Hsearch.
  destruct (fresh_route_dispatch mws method segs segs (Some f) (Some f, ∅) w req)
    as (r & Hr & Hres & Hserve); try easy; try now apply literal_segments.
  exists r. split; [easy|]. split; [|easy].
  rewrite Router_AddRoute_pattern in Hr; try easy; [|now apply literal_segments].
  injection Hr as <-. cbn [staticRoutes]. now rewrite staticRoutes_Uses.
Qed.

End FurtherProperties.

(** ** The trie as a map from key sequences to handlers *)

Section TrieMap.

Context `{HTTP}.

Implicit Types (r : Router) (h : HandlerFunc) (current : node).

Lemma keysOf_cons (part : string) (rest : list string) :
  keysOf (part :: rest) = keyOf part :: keysOf rest.
Proof. reflexivity. Qed.

Lemma handlerAt_cons current (key : string) (keys : list string) :
  handlerAt current (key :: keys) =
  match children current !! key with
  | Some child => handlerAt child keys
  | None => None
  end.
Proof. unfold handlerAt. cbn [walk]. now destruct (children current !! key). Qed.

Lemma handlerAt_childAt current (part : string) (keys : list string) :
  handlerAt (childAt current part) keys = handlerAt current (keyOf part :: keys).
Proof.
  rewrite handlerAt_cons. unfold childAt.
  destruct (children current !! keyOf part) as [c|]; [easy|].
  destruct keys as [|key keys]; [easy|].
  rewrite handlerAt_cons. cbn [children]. now rewrite lookup_empty.
Qed.

Lemma isParam_insertParts current parts h :
  isParam (insertParts current parts h) = isParam current.
Proof. destruct parts; [easy|]. now rewrite insertParts_cons. Qed.

Lemma isWillcard_insertParts current parts h :
  isWillcard (insertParts current parts h) = isWillcard current.
Proof. destruct parts; [easy|]. now rewrite insertParts_cons. Qed.

Lemma handlerAt_insertParts_eq current (parts : list string) h (keys : list string) :
  handlerAt (insertParts current parts h) keys
  = if decide (keys = keysOf parts) then h else handlerAt current keys.
Proof.
  revert current keys. induction parts as [|part rest IH]; intros current keys.
  - destruct keys as [|key keys]; [easy|].
    rewrite decide_False by easy. now rewrite !handlerAt_cons.
  - rewrite insertParts_cons, keysOf_cons.
    destruct keys as [|key keys]; [now rewrite decide_False|].
    rewrite handlerAt_cons. cbn [children].
    destruct (decide (key = keyOf part)) as [->|Hkey].
    + rewrite lookup_insert_eq, IH, handlerAt_childAt.
      destruct (decide (keys = keysOf rest)) as [->|Hne].
      * now rewrite decide_True.
      * rewrite decide_False; [easy|]. now intros [=].
    + rewrite lookup_insert_ne by easy.
      rewrite decide_False; [|now intros [=]]. now rewrite handlerAt_cons.
Qed.

Lemma rootOf_other r (method m : string) (root : node) :
  method <> m ->
  rootOf {| staticRoutes := staticRoutes r;
            dynamicRoutes := <[method := root]> (dynamicRoutes r);
            middleware := middleware r;
            notFound := notFound r |} m = rootOf r m.
Proof. intros Hm. unfold rootOf. cbn [dynamicRoutes]. now rewrite lookup_insert_ne. Qed.

End TrieMap.

Section TrieMapProperties.

Context `{HTTP}.

Implicit Types (r : Router) (h : HandlerFunc) (current : node).

(** Inserting a route sets the handler at the keys of its segments and at no
    other key sequence: everywhere else the trie holds the handler it held,
    and none under the nodes the insertion created. *)
Theorem handlerAt_insertParts current (parts : list string) h (keys : list string) :
  handlerAt (insertParts current parts h) keys
  = if decide (keys = keysOf parts) then h else handlerAt current keys.
Proof. apply handlerAt_insertParts_eq. Qed.

(** Inserting a route removes no node and changes no node's parameter name
    or flags: every node of the trie is still there, under the same keys,
    with the name and the flags it was created with, and with its handler
    unless the route ends at it. *)
Theorem insertParts_keeps_nodes current (parts : list string) h
    (keys : list string) (c : node) :
  walk current keys = Some c ->
  exists c',
    walk (insertParts current parts h) keys = Some c'
    /\ paramName c' = paramName c
    /\ isParam c' = isParam c
    /\ isWillcard c' = isWillcard c
    /\ handler c' = (if decide (keys = keysOf parts) then h else handler c).
Proof.
  revert current keys. induction parts as [|part rest IH]; intros current keys Hwalk.
  - destruct keys as [|key keys].
    + injection Hwalk as <-. eexists. split; [reflexivity|]. easy.
    + exists c. rewrite decide_False by easy. easy.
  - rewrite insertParts_cons, keysOf_cons. destruct keys as [|key keys].
    + injection Hwalk as <-. eexists. split; [reflexivity|].
      now rewrite decide_False.
    + cbn [walk] in Hwalk. cbn [walk children].
      destruct (children current !! key) as [d|] eqn:Hd; [|easy].
      destruct (decide (key = keyOf part)) as [->|Hkey].
      * rewrite lookup_insert_eq.
        assert (Hchild : childAt current part = d) by (unfold childAt; now rewrite Hd).
        rewrite Hchild. destruct (IH d keys Hwalk) as (c' & Hc' & Hn & Hp & Hw & Hh).
        exists c'. repeat split; try easy. rewrite Hh.
        destruct (decide (keys = keysOf rest)) as [->|Hne].
        -- now rewrite decide_True.
        -- rewrite decide_False; [easy|]. now intros [=].
      * rewrite lookup_insert_ne, Hd by easy. exists c.
        rewrite decide_False; [easy|]. now intros [=].
Qed.

(** After any sequence of registrations the trie of a method holds, at every
    key sequence, the handler of the last dynamic route registered for that
    method with those keys, and what it held before where there is none. *)
Theorem trie_holds_last_registration r (routes : list Route) (m : string)
    (keys : list string) :
  exists r',
    AddRoutes r routes = Returned r'
    /\ handlerAt (rootOf r' m) keys
       = lastAtKeys m keys (handlerAt (rootOf r m) keys) routes.
Proof.
  revert r. induction routes as [|route routes IH]; intros r; [now exists r|].
  cbn [AddRoutes]. unfold lastAtKeys. cbn [foldl]. fold (lastAtKeys m keys).
  unfold trieKeys. cbn zeta.
  fold (isDynamic (strings.Trim (pattern route) "/")).
  destruct (isDynamic (strings.Trim (pattern route) "/")) eqn:Hd.
  - rewrite Router_AddRoute_dynamic, bind_Returned by easy.
    match goal with |- exists r', AddRoutes ?r1 _ = _ /\ _ =>
      destruct (IH r1) as (r' & Hr' & Hat) end.
    exists r'. split; [easy|]. rewrite Hat. f_equal.
    destruct (decide (method route = m)) as [<-|Hm].
    + rewrite rootOf_insert, handlerAt_insertParts_eq.
      destruct (decide (keys = _)) as [->|Hk].
      * now rewrite decide_True.
      * rewrite decide_False; [easy|]. intros [_ [=]]. congruence.
    + rewrite rootOf_other by easy. rewrite decide_False; [easy|]. now intros [? _].
  - rewrite Router_AddRoute_static, bind_Returned by easy.
    match goal with |- exists r', AddRoutes ?r1 _ = _ /\ _ =>
      destruct (IH r1) as (r' & Hr' & Hat) end.
    exists r'. split; [easy|]. rewrite Hat. f_equal.
    rewrite decide_False; [easy|]. now intros [_ ?].
Qed.

(** After any sequence of registrations the static table holds, at every
    key, the handler of the last static route registered with that key, and
    what it held before where there is none. *)
Theorem static_table_holds_last_registration r (routes : list Route) (key : string) :
  exists r',
    AddRoutes r routes = Returned r'
    /\ staticRoutes r' !! key = lastAtKey key (staticRoutes r !! key) routes.
Proof.
  revert r. induction routes as [|route routes IH]; intros r; [now exists r|].
  cbn [AddRoutes]. unfold lastAtKey. cbn [foldl]. fold (lastAtKey key).
  unfold staticKey. cbn zeta.
  fold (isDynamic (strings.Trim (pattern route) "/")).
  destruct (isDynamic (strings.Trim (pattern route) "/")) eqn:Hd.
  - rewrite Router_AddRoute_dynamic, bind_Returned by easy.
    match goal with |- exists r', AddRoutes ?r1 _ = _ /\ _ =>
      destruct (IH r1) as (r' & Hr' & Hat) end.
    exists r'. split; [easy|]. now rewrite Hat.
  - rewrite Router_AddRoute_static, bind_Returned by easy.
    match goal with |- exists r', AddRoutes ?r1 _ = _ /\ _ =>
      destruct (IH r1) as (r' & Hr' & Hat) end.
    exists r'. split; [easy|]. rewrite Hat. f_equal. cbn [staticRoutes].
    destruct (decide (Some _ = Some key)) as [[= <-]|Hk].
    + apply lookup_insert_eq.
    + apply lookup_insert_ne. congruence.
Qed.

End TrieMapProperties.

(** ** Flags, composition of registrations, methods *)

Section RegistrationFacts.

Context `{HTTP}.

Implicit Types (r : Router) (h : HandlerFunc) (current : node).

Lemma flagsFor_created (part : string) :
  flagsFor (keyOf part)
    {| children := ∅; handler := None; isParam := (partKey part).1.1.2;
       isWillcard := (partKey part).1.2; paramName := (partKey part).2 |}.
Proof.
  unfold keyOf, partKey, flagsFor.
  destruct (strings.HasPrefix part ":") eqn:Hp;
    [|destruct (strings.HasPrefix part "*") eqn:Hw]; cbn.
  - split; [now rewrite bool_decide_eq_true_2|].
    split; [now rewrite bool_decide_eq_false_2|easy].
  - split; [now rewrite bool_decide_eq_false_2|].
    split; [now rewrite bool_decide_eq_true_2|easy].
  - rewrite !bool_decide_eq_false_2; [easy| |]; intros ->; discriminate.
Qed.

Lemma flagged_created (isP isW : bool) (name : string) :
  flagged {| children := ∅; handler := None; isParam := isP; isWillcard := isW;
             paramName := name |}.
Proof. constructor. intros key c Hc. cbn in Hc. now rewrite lookup_empty in Hc. Qed.

Lemma flagged_children current (key : string) (c : node) :
  flagged current -> children current !! key = Some c -> flagsFor key c /\ flagged c.
Proof. intros Hf. destruct Hf as [n Hn]. apply Hn. Qed.

Lemma flagsFor_childAt current (part : string) :
  flagged current ->
  flagsFor (keyOf part) (childAt current part) /\ flagged (childAt current part).
Proof.
  intros Hf. unfold childAt.
  destruct (children current !! keyOf part) as [c|] eqn:Hc.
  - now apply (flagged_children current).
  - split; [apply flagsFor_created|apply flagged_created].
Qed.

Lemma flagged_insertParts current (parts : list string) h :
  flagged current -> flagged (insertParts current parts h).
Proof.
  revert current. induction parts as [|part rest IH]; intros current Hf.
  - constructor. intros key c Hc. now apply (flagged_children current).
  - rewrite insertParts_cons. constructor. intros key c Hc. cbn [children] in Hc.
    destruct (decide (key = keyOf part)) as [->|Hkey].
    + rewrite lookup_insert_eq in Hc. injection Hc as <-.
      destruct (flagsFor_childAt current part Hf) as [(Hp & Hw & Hn) Hfc].
      split; [|now apply IH].
      unfold flagsFor.
      now rewrite isParam_insertParts, isWillcard_insertParts, paramName_insertParts.
    + rewrite lookup_insert_ne in Hc by easy. now apply (flagged_children current).
Qed.

Lemma flagged_AddRoutes r (routes : list Route) :
  map_Forall (fun _ root => flagged root) (dynamicRoutes r) ->
  exists r', AddRoutes r routes = Returned r' /\
             map_Forall (fun _ root => flagged root) (dynamicRoutes r').
Proof.
  revert r. induction routes as [|route routes IH]; intros r Hr; [now exists r|].
  cbn [AddRoutes].
  destruct (isDynamic (strings.Trim (pattern route) "/")) eqn:Hd.
  - rewrite Router_AddRoute_dynamic, bind_Returned by easy. apply IH.
    cbn [dynamicRoutes]. apply map_Forall_insert_2; [|easy].
    apply flagged_insertParts. unfold rootOf.
    destruct (dynamicRoutes r !! method route) as [root|] eqn:Hroot.
    + now apply (Hr (method route)).
    + apply flagged_created.
  - rewrite Router_AddRoute_static, bind_Returned by easy. now apply IH.
Qed.

Lemma method_key_inj (m m' x y : string) :
  strings.Contains m " " = false -> strings.Contains m' " " = false ->
  m ++ " " ++ x = m' ++ " " ++ y -> m = m'.
Proof.
  revert m'. induction m as [|a m IH]; intros [|a' m'] Hm Hm' Heq; cbn in *.
  - reflexivity.
  - injection Heq as <- _. now rewrite Ascii.eqb_refl in Hm'.
  - injection Heq as -> _. now rewrite Ascii.eqb_refl in Hm.
  - injection Heq as <- Heq.
    apply orb_false_iff in Hm as [_ Hm]. apply orb_false_iff in Hm' as [_ Hm'].
    f_equal. now apply IH.
Qed.

Lemma searchParts_v1_fst current (parts : list string) (params : gmap string string) :
  searchParts_v1 current parts = (searchParts current parts params).1.
Proof.
  revert current params. induction parts as [|part rest IH]; intros current params.
  - reflexivity.
  - cbn [searchParts_v1 searchParts].
    destruct (children current !! part) as [child|]; [apply IH|].
    destruct (children current !! ":param") as [paramChild|]; [apply IH|].
    now destruct (children current !! "*").
Qed.

End RegistrationFacts.

Section RegistrationProperties.

Context `{HTTP}.

Implicit Types (r : Router) (h : HandlerFunc) (mws : list Middleware).

(** In every trie of a router built by registrations on a new router, a
    node is flagged as a parameter exactly when it is stored under the key
    [":param"], as a wildcard exactly when it is stored under ["*"], and only
    parameter nodes have a parameter name. *)
Theorem registered_tries_are_flagged mws (routes : list Route) :
  exists r,
    AddRoutes (Uses NewRouter mws) routes = Returned r
    /\ map_Forall (fun _ root => flagged root) (dynamicRoutes r).
Proof.
  apply flagged_AddRoutes. rewrite dynamicRoutes_Uses. apply map_Forall_empty.
Qed.

(** [Use] and [AddRoute] commute, and [Use] changes nothing of what a
    dispatch selects: a middleware registered after a route wraps that route
    like the middleware registered before it, innermost of all. *)
Theorem Use_commutes_with_AddRoute r (mw : Middleware) (m p : string) h w req :
  Router_AddRoute (Router_Use r mw) m p h
  = (r' ← Router_AddRoute r m p h; Returned (Router_Use r' mw))
  /\ resolve (Router_Use r mw) (Method req) (URL_Path req)
     = resolve r (Method req) (URL_Path req)
  /\ ServeHTTP (Router_Use r mw) w req
     = match resolve r (Method req) (URL_Path req) with
       | StaticHit h' => call (composed (middleware r ++ [mw]) h') w req
       | DynamicHit f params =>
           call (composed (middleware r ++ [mw]) (Some f)) w (withParams req params)
       | Miss => call (notFound r) w req
       end.
Proof.
  split; [|split].
  - destruct (isDynamic (strings.Trim p "/")) eqn:Hd.
    + now rewrite !Router_AddRoute_dynamic by easy.
    + now rewrite !Router_AddRoute_static by easy.
  - reflexivity.
  - rewrite ServeHTTP_resolve.
    change (resolve (Router_Use r mw) (Method req) (URL_Path req))
      with (resolve r (Method req) (URL_Path req)).
    destruct (resolve r (Method req) (URL_Path req)) as [h'|f params|];
      cbn [respond]; [| |easy]; now rewrite serveWithMiddleware_composed.
Qed.

(** Two registrations that do not meet commute: a static and a dynamic
    route, two static routes with different keys, two dynamic routes of
    different methods give the same router in either order. *)
Theorem independent_registrations_commute r (a b : Route) :
  match staticKey a, staticKey b with
  | Some ka, Some kb => ka <> kb
  | None, None => method a <> method b
  | _, _ => True
  end ->
  AddRoutes r [a; b] = AddRoutes r [b; a].
Proof.
  unfold staticKey. cbn zeta.
  fold (isDynamic (strings.Trim (pattern a) "/")).
  fold (isDynamic (strings.Trim (pattern b) "/")).
  cbn [AddRoutes].
  destruct (isDynamic (strings.Trim (pattern a) "/")) eqn:Ha,
           (isDynamic (strings.Trim (pattern b) "/")) eqn:Hb; intros Hab.
  - rewrite (Router_AddRoute_dynamic r (method a)), (Router_AddRoute_dynamic r (method b))
      by easy.
    rewrite !bind_Returned, !Router_AddRoute_dynamic by easy.
    rewrite !bind_Returned, !rootOf_other by easy.
    cbn [staticRoutes dynamicRoutes middleware notFound].
    now rewrite insert_insert_ne by easy.
  - rewrite (Router_AddRoute_dynamic r (method a)), (Router_AddRoute_static r (method b))
      by easy.
    rewrite !bind_Returned.
    rewrite (Router_AddRoute_static _ (method b) (pattern b)),
      (Router_AddRoute_dynamic _ (method a) (pattern a)) by easy.
    reflexivity.
  - rewrite (Router_AddRoute_static r (method a)), (Router_AddRoute_dynamic r (method b))
      by easy.
    rewrite !bind_Returned.
    rewrite (Router_AddRoute_static _ (method a) (pattern a)),
      (Router_AddRoute_dynamic _ (method b) (pattern b)) by easy.
    reflexivity.
  - rewrite (Router_AddRoute_static r (method a)), (Router_AddRoute_static r (method b))
      by easy.
    rewrite !bind_Returned, !Router_AddRoute_static by easy.
    rewrite !bind_Returned. cbn [staticRoutes dynamicRoutes middleware notFound].
    rewrite insert_insert_ne; [easy|]. congruence.
Qed.

(** A registration for one method changes nothing of what a dispatch
    selects for another method, the two methods being without a space (the
    static key joins method and path with a space). *)
Theorem registration_leaves_other_methods r (m p : string) h (m' q : string) :
  m' <> m ->
  strings.Contains m " " = false -> strings.Contains m' " " = false ->
  exists r1,
    Router_AddRoute r m p h = Returned r1
    /\ resolve r1 m' q = resolve r m' q.
Proof.
  intros Hne Hm Hm'.
  destruct (isDynamic (strings.Trim p "/")) eqn:Hd.
  - rewrite Router_AddRoute_dynamic by easy. eexists. split; [reflexivity|].
    unfold resolve. cbn zeta. cbn [staticRoutes dynamicRoutes].
    now rewrite lookup_insert_ne.
  - rewrite Router_AddRoute_static by easy. eexists. split; [reflexivity|].
    unfold resolve. cbn zeta. cbn [staticRoutes dynamicRoutes].
    rewrite lookup_insert_ne; [easy|].
    intros Heq. apply Hne. symmetry. exact (method_key_inj _ _ _ _ Hm Hm' Heq).
Qed.

(** The first revision of the search finds the handler the second finds,
    in every trie and for every path, and the first revision of the
    dispatcher makes the call the second makes, except that on a hit in the
    trie it passes the request on without the parameter mapping. *)
Theorem first_revision_selects_same_handler r (root : node) (path : string) w req :
  searchDynamicRoute_v1 root path = (searchDynamicRoute root path).1
  /\ ServeHTTP_v1 r w req
     = match resolve r (Method req) (URL_Path req) with
       | DynamicHit f _ => serveWithMiddleware r (Some f) w req
       | res => respond r res w req
       end.
Proof.
  split; [apply searchParts_v1_fst|].
  unfold ServeHTTP_v1, resolve, searchDynamicRoute_v1. cbn zeta.
  destruct (staticRoutes r !! _) as [h|]; [easy|].
  destruct (dynamicRoutes r !! _) as [root'|]; [|easy].
  rewrite (searchParts_v1_fst _ _ ∅). unfold searchDynamicRoute.
  now destruct (searchParts _ _ _) as [[f|] params].
Qed.

End RegistrationProperties.

(** ** Routes that hide one another *)

Section ShadowFacts.

Context `{HTTP}.

Implicit Types (r : Router) (h : HandlerFunc) (current : node).

Lemma search_no_children current (part : string) (rest : list string)
    (params : gmap string string) :
  children current = ∅ -> searchParts current (part :: rest) params = (None, ∅).
Proof. intros Hc. apply search_unmatched; rewrite Hc; apply lookup_empty. Qed.

Lemma children_insertParts_nil current h :
  children (insertParts current [] h) = children current.
Proof. reflexivity. Qed.

Lemma children_childAt_new current (part : string) :
  children current !! keyOf part = None -> children (childAt current part) = ∅.
Proof. unfold childAt. now intros ->. Qed.

Lemma handler_insertParts_cons current (part : string) (rest : list string) h :
  handler (insertParts current (part :: rest) h) = handler current.
Proof. now rewrite insertParts_cons. Qed.

(** Two routes with the same literal prefix, inserted one after the other
    below a blank node: the search of a request with that prefix goes on
    below the prefix in the two routes' remainders inserted below a blank
    node. *)
Lemma search_two_inserted_prefix (pre X1 X2 Y : list string) h1 h2
    (result : gmap string string -> HandlerFunc * gmap string string) :
  Forall (fun s => literal s = true) pre ->
  (forall current params, blank current ->
     searchParts (insertParts (insertParts current X1 h1) X2 h2) Y params
     = result params) ->
  forall current params, blank current ->
    searchParts (insertParts (insertParts current (pre ++ X1) h1) (pre ++ X2) h2)
      (pre ++ Y) params
    = result params.
Proof.
  intros Hpre Hend.
  induction Hpre as [|s pre Hs _ IH]; intros current params Hcur; [now apply Hend|].
  cbn [app]. rewrite (insertParts_cons current s).
  rewrite insertParts_cons, keyOf_literal by easy. unfold childAt at 1.
  rewrite keyOf_literal by easy. cbn [children]. rewrite lookup_insert_eq.
  erewrite search_literal by (cbn [children]; apply lookup_insert_eq).
  apply IH. now apply blank_childAt.
Qed.

(** Dispatch on the router with the two routes [method p1 -> h1] and then
    [method p2 -> h2]. *)
Lemma fresh_two_routes_dispatch (mws : list Middleware) (method : string)
    (p1 p2 rsegs : list string) h1 h2
    (found : HandlerFunc * gmap string string) w req :
  Forall (fun s => segment s = true) p1 -> p1 <> [] ->
  isDynamic (String.concat "/" p1) = true ->
  Forall (fun s => segment s = true) p2 -> p2 <> [] ->
  isDynamic (String.concat "/" p2) = true ->
  Forall (fun s => segment s = true) rsegs -> rsegs <> [] ->
  Method req = method -> URL_Path req = pathOf rsegs ->
  searchParts (insertParts (insertParts emptyRoot p1 h1) p2 h2) rsegs ∅ = found ->
  exists r1 r2,
    Router_AddRoute (Uses NewRouter mws) method (pathOf p1) h1 = Returned r1
    /\ Router_AddRoute r1 method (pathOf p2) h2 = Returned r2
    /\ resolve r2 method (URL_Path req)
        = match found with
          | (Some f, params) => DynamicHit f params
          | (None, _) => Miss
          end
    /\ ServeHTTP r2 w req
        = match found with
          | (Some f, params) =>
              call (composed mws (Some f)) w (withParams req params)
          | (None, _) => http_NotFound w req
          end.
Proof.
  intros Hp1 Hne1 Hd1 Hp2 Hne2 Hd2 Hrsegs Hrne Hmethod Hpath Hsearch.
  eexists. eexists. split; [now apply Router_AddRoute_pattern|].
  split; [now apply Router_AddRoute_pattern|].
  match goal with
  | |- resolve ?r _ _ = _ /\ _ =>
      assert (Hres : resolve r method (URL_Path req)
                     = match found with
                       | (Some f, params) => DynamicHit f params
                       | (None, _) => Miss
                       end)
  end.
  { rewrite (resolve_trie _ method _ rsegs); try easy.
    - now rewrite !rootOf_insert, rootOf_Uses_NewRouter, Hsearch.
    - cbn [staticRoutes]. now rewrite staticRoutes_Uses. }
  split; [exact Hres|].
  rewrite ServeHTTP_resolve, Hmethod, Hres.
  destruct found as [[f|] params]; cbn [respond].
  - rewrite serveWithMiddleware_composed. cbn [middleware].
    now rewrite middleware_Uses_NewRouter.
  - cbn [notFound]. now rewrite notFound_Uses.
Qed.

(** Below a node with a parameter child and a wildcard child, each without
    children, a request of two segments or more finds nothing. *)
Lemma search_param_and_wildcard current (P W : node) (a b : string)
    (rest : list string) (params : gmap string string) :
  children current !! ":param" = Some P -> children current !! "*" = Some W ->
  children P = ∅ -> children W = ∅ ->
  (forall key, key <> ":param" -> key <> "*" -> children current !! key = None) ->
  searchParts current (a :: b :: rest) params = (None, ∅).
Proof.
  intros HP HW HcP HcW Hother.
  destruct (decide (a = ":param")) as [->|Hap].
  { erewrite search_literal by exact HP. now apply search_no_children. }
  destruct (decide (a = "*")) as [->|Haw].
  { erewrite search_literal by exact HW. now apply search_no_children. }
  rewrite (search_param _ a _ params P) by auto.
  now apply search_no_children.
Qed.

Lemma search_param_then_wildcard (name a b : string) (rest : list string)
    current h1 h2 (params : gmap string string) :
  blank current ->
  searchParts (insertParts (insertParts current [":" ++ name] h1) ["*"] h2)
    (a :: b :: rest) params = (None, ∅).
Proof.
  intros [Hc Hh]. rewrite (insertParts_cons current), (insertParts_cons _ "*").
  change (keyOf (":" ++ name)) with ":param". change (keyOf "*") with "*".
  eapply search_param_and_wildcard; cbn [children].
  - rewrite lookup_insert_ne by easy. apply lookup_insert_eq.
  - apply lookup_insert_eq.
  - rewrite children_insertParts_nil. apply children_childAt, Hc.
  - rewrite children_insertParts_nil. apply children_childAt_new.
    change (keyOf "*") with "*". cbn [children].
    rewrite lookup_insert_ne, Hc by easy. apply lookup_empty.
  - intros key Hk1 Hk2. rewrite !lookup_insert_ne, Hc by easy. apply lookup_empty.
Qed.

Lemma search_wildcard_then_param (name a b : string) (rest : list string)
    current h1 h2 (params : gmap string string) :
  blank current ->
  searchParts (insertParts (insertParts current ["*"] h2) [":" ++ name] h1)
    (a :: b :: rest) params = (None, ∅).
Proof.
  intros [Hc Hh]. rewrite (insertParts_cons current), (insertParts_cons _ (":" ++ name)).
  change (keyOf (":" ++ name)) with ":param". change (keyOf "*") with "*".
  eapply search_param_and_wildcard; cbn [children].
  - apply lookup_insert_eq.
  - rewrite lookup_insert_ne by easy. apply lookup_insert_eq.
  - rewrite children_insertParts_nil. apply children_childAt_new.
    change (keyOf (":" ++ name)) with ":param". cbn [children].
    rewrite lookup_insert_ne, Hc by easy. apply lookup_empty.
  - rewrite children_insertParts_nil. apply children_childAt, Hc.
  - intros key Hk1 Hk2. rewrite !lookup_insert_ne, Hc by easy. apply lookup_empty.
Qed.

Lemma search_param_then_literal (name lit x : string) current h1 h2
    (params : gmap string string) :
  blank current -> literal lit = true ->
  searchParts (insertParts (insertParts current [":" ++ name] h1) [lit; ":" ++ x] h2)
    [lit] params = (None, params).
Proof.
  intros [Hc Hh] Hlit. rewrite (insertParts_cons current).
  rewrite (insertParts_cons _ lit), keyOf_literal by easy.
  erewrite search_literal by (cbn [children]; apply lookup_insert_eq).
  cbn [searchParts]. rewrite handler_insertParts_cons.
  unfold childAt at 1. rewrite keyOf_literal by easy. cbn [children].
  change (keyOf (":" ++ name)) with ":param".
  assert (Hne : ":param" <> lit).
  { intros <-. discriminate Hlit. }
  now rewrite lookup_insert_ne, Hc, lookup_empty by easy.
Qed.

End ShadowFacts.

Section ShadowProperties.

Context `{HTTP}.

Implicit Types (r : Router) (h : HandlerFunc) (mws : list Middleware).

(** A wildcard registered beside a parameter is never reached by the
    requests it is there for: with [method /pre.../:name] and
    [method /pre.../*] registered in either order, a request with two
    segments or more after the prefix enters the parameter node, finds
    nothing below it and gets the not-found response; the search does not
    come back to the wildcard. *)
Theorem wildcard_beside_parameter_is_shadowed mws (method : string)
    (pre : list string) (name a b : string) (rest : list string) f1 f2 w req :
  Forall (fun s => literal s = true) pre -> segment name = true ->
  Forall (fun s => segment s = true) (a :: b :: rest) ->
  Method req = method -> URL_Path req = pathOf (pre ++ a :: b :: rest) ->
  (exists r1 r2,
      Router_AddRoute (Uses NewRouter mws) method (pathOf (pre ++ [":" ++ name]))
        (Some f1) = Returned r1
      /\ Router_AddRoute r1 method (pathOf (pre ++ ["*"])) (Some f2) = Returned r2
      /\ resolve r2 method (URL_Path req) = Miss
      /\ ServeHTTP r2 w req = http_NotFound w req)
  /\ (exists r1 r2,
        Router_AddRoute (Uses NewRouter mws) method (pathOf (pre ++ ["*"]))
          (Some f2) = Returned r1
        /\ Router_AddRoute r1 method (pathOf (pre ++ [":" ++ name])) (Some f1)
           = Returned r2
        /\ resolve r2 method (URL_Path req) = Miss
        /\ ServeHTTP r2 w req = http_NotFound w req).
Proof.
  intros Hpre Hname Hsegs Hmethod Hpath.
  assert (Hpar : Forall (fun s => segment s = true) (pre ++ [(":" ++ name)%string])%list).
  { apply Forall_app. split; [now apply literal_segments|].
    repeat constructor. now apply segment_param. }
  assert (Hwild : Forall (fun s => segment s = true) (pre ++ ["*"])%list).
  { apply Forall_app. split; [now apply literal_segments|now repeat constructor]. }
  assert (Hreq : Forall (fun s => segment s = true) (pre ++ a :: b :: rest)%list).
  { apply Forall_app. split; [now apply literal_segments|easy]. }
  assert (Hdpar : isDynamic (String.concat "/" (pre ++ [(":" ++ name)%string])%list) = true).
  { unfold isDynamic. rewrite (Contains_concat _ (":" ++ name) ":"); [easy| |easy].
    apply in_or_app. right. now left. }
  assert (Hdwild : isDynamic (String.concat "/" (pre ++ ["*"])%list) = true).
  { unfold isDynamic.
    rewrite (Contains_concat _ "*" "*"); [now rewrite orb_true_r| |easy].
    apply in_or_app. right. now left. }
  split.
  - apply (fresh_two_routes_dispatch mws method (pre ++ [":" ++ name]) (pre ++ ["*"])
             (pre ++ a :: b :: rest) (Some f1) (Some f2) (None, ∅) w req);
      try easy; try (now destruct pre).
    apply (search_two_inserted_prefix pre [":" ++ name] ["*"] (a :: b :: rest)
             (Some f1) (Some f2) (fun _ => (None, ∅)));
      [easy| |apply blank_emptyRoot].
    intros current params Hcur. now apply search_param_then_wildcard.
  - apply (fresh_two_routes_dispatch mws method (pre ++ ["*"]) (pre ++ [":" ++ name])
             (pre ++ a :: b :: rest) (Some f2) (Some f1) (None, ∅) w req);
      try easy; try (now destruct pre).
    apply (search_two_inserted_prefix pre ["*"] [":" ++ name] (a :: b :: rest)
             (Some f2) (Some f1) (fun _ => (None, ∅)));
      [easy| |apply blank_emptyRoot].
    intros current params Hcur. now apply search_wildcard_then_param.
Qed.

(** Registering a route can take a request away from another route: the
    request [method /pre.../lit] is served by [method /pre.../:name] until
    [method /pre.../lit/:x] is registered; from then on the search enters
    the literal node of [lit], which has no handler, does not come back to
    the parameter, and the request gets the not-found response. *)
Theorem literal_route_hides_parameter_match mws (method : string)
    (pre : list string) (name lit x : string) f1 f2 w req :
  Forall (fun s => literal s = true) pre -> segment name = true ->
  literal lit = true -> segment x = true ->
  Method req = method -> URL_Path req = pathOf (pre ++ [lit]) ->
  exists r1 r2,
    Router_AddRoute (Uses NewRouter mws) method (pathOf (pre ++ [":" ++ name]))
      (Some f1) = Returned r1
    /\ Router_AddRoute r1 method (pathOf (pre ++ [lit; ":" ++ x])) (Some f2)
       = Returned r2
    /\ resolve r1 method (URL_Path req) = DynamicHit f1 {[ name := lit ]}
    /\ ServeHTTP r1 w req
       = call (composed mws (Some f1)) w (withParams req {[ name := lit ]})
    /\ resolve r2 method (URL_Path req) = Miss
    /\ ServeHTTP r2 w req = http_NotFound w req.
Proof.
  intros Hpre Hname Hlit Hx Hmethod Hpath.
  assert (Hlit' := Hlit). apply literal_spec in Hlit' as (Hlseg & Hlp & Hlw).
  assert (Hpar : Forall (fun s => segment s = true) (pre ++ [(":" ++ name)%string])%list).
  { apply Forall_app. split; [now apply literal_segments|].
    repeat constructor. now apply segment_param. }
  assert (Hsnd : Forall (fun s => segment s = true) (pre ++ [lit; (":" ++ x)%string])%list).
  { apply Forall_app. split; [now apply literal_segments|].
    repeat constructor; [easy|now apply segment_param]. }
  assert (Hreq : Forall (fun s => segment s = true) (pre ++ [lit])%list).
  { apply Forall_app. split; [now apply literal_segments|now repeat constructor]. }
  assert (Hdpar : isDynamic (String.concat "/" (pre ++ [(":" ++ name)%string])%list) = true).
  { unfold isDynamic. rewrite (Contains_concat _ (":" ++ name) ":"); [easy| |easy].
    apply in_or_app. right. now left. }
  assert (Hdsnd : isDynamic (String.concat "/" (pre ++ [lit; (":" ++ x)%string])%list) = true).
  { unfold isDynamic. rewrite (Contains_concat _ (":" ++ x) ":"); [easy| |easy].
    apply in_or_app. right. right. now left. }
  destruct (fresh_two_routes_dispatch mws method (pre ++ [":" ++ name])
              (pre ++ [lit; ":" ++ x]) (pre ++ [lit]) (Some f1) (Some f2)
              (None, ∅) w req) as (r1 & r2 & Hr1 & Hr2 & Hres2 & Hserve2);
    try easy; try (now destruct pre).
  { apply (search_two_inserted_prefix pre [":" ++ name] [lit; ":" ++ x] [lit]
             (Some f1) (Some f2) (fun ps => (None, ps)));
      [easy| |apply blank_emptyRoot].
    intros current params Hcur. now apply search_param_then_literal. }
  destruct (fresh_route_dispatch mws method (pre ++ [":" ++ name]) (pre ++ [lit])
              (Some f1) (Some f1, {[ name := lit ]}) w req)
    as (r1' & Hr1' & Hres1 & Hserve1); try easy; try (now destruct pre).
  { apply search_inserted_prefix; [easy| |easy].
    intros current Hcur. rewrite <- insert_empty.
    apply search_inserted_param; try easy.
    - intros ->. discriminate Hlp.
    - now apply segment_spec in Hname. }
  rewrite Hr1 in Hr1'. injection Hr1' as <-.
  exists r1, r2. easy.
Qed.

End ShadowProperties.

(** ** The further properties at work on the tracing router *)

Lemma route_binds_every_parameter_witness :
  exists r : @Router trace_HTTP,
    Router_AddRoute (Uses NewRouter [logging "A"]) "GET" "/users/:id/posts/:pid/:pid"
      (tracing "h") = Returned r
    /\ resolve r "GET" "/users/:param/posts/8/9"
       = DynamicHit (tracing_body "h") {[ "pid" := "9" ]}
    /\ ServeHTTP r [] (GET "/users/:param/posts/8/9")
       = call (composed [logging "A"] (tracing "h")) []
           (withParams (GET "/users/:param/posts/8/9") {[ "pid" := "9" ]}).
Proof.
  apply (route_binds_every_parameter (H := trace_HTTP) [logging "A"] "GET"
           [Lit "users"; Par "id" ":param"; Lit "posts"; Par "pid" "8"; Par "pid" "9"]
           (tracing_body "h") [] (GET "/users/:param/posts/8/9"));
    try reflexivity.
  - now repeat constructor.
  - discriminate.
Defined.

Lemma wildcard_keeps_bound_parameters_witness :
  exists r : @Router trace_HTTP,
    Router_AddRoute (Uses NewRouter [logging "A"]) "GET" "/users/:id/files/*"
      (tracing "h") = Returned r
    /\ resolve r "GET" "/users/7/files/a/b" = DynamicHit (tracing_body "h") {[ "id" := "7" ]}
    /\ ServeHTTP r [] (GET "/users/7/files/a/b")
       = call (composed [logging "A"] (tracing "h")) []
           (withParams (GET "/users/7/files/a/b") {[ "id" := "7" ]}).
Proof.
  apply (wildcard_keeps_bound_parameters (H := trace_HTTP) [logging "A"] "GET"
           [Lit "users"; Par "id" "7"; Lit "files"] "a" ["b"]
           (tracing_body "h") [] (GET "/users/7/files/a/b"));
    try reflexivity.
  - now repeat constructor.
  - now repeat constructor.
  - discriminate.
Defined.

Lemma route_needs_exact_segments_witness :
  exists r : @Router trace_HTTP,
    Router_AddRoute (Uses NewRouter [logging "A"]) "GET" "/users/:id" (tracing "h")
      = Returned r
    /\ resolve r "GET" "/users/7/posts" = Miss
    /\ ServeHTTP r [] (GET "/users/7/posts") = http_NotFound [] (GET "/users/7/posts")
    /\ resolve r "GET" "/users" = Miss
    /\ ServeHTTP r [] (GET "/users") = http_NotFound [] (GET "/users").
Proof.
  apply (route_needs_exact_segments (H := trace_HTTP) [logging "A"] "GET"
           [Lit "users"] (Par "id" "7") [] "posts" []
           (tracing_body "h") [] (GET "/users/7/posts") [] (GET "/users"));
    try reflexivity.
  - now repeat constructor.
  - discriminate.
  - now repeat constructor.
Defined.

Lemma root_request_binds_empty_value_witness :
  exists r : @Router trace_HTTP,
    Router_AddRoute (Uses NewRouter [logging "A"]) "GET" "/:id" (tracing "h")
      = Returned r
    /\ ServeHTTP r [] (GET "/")
       = call (composed [logging "A"] (tracing "h")) []
           (withParams (GET "/") {[ "id" := EmptyString ]}).
Proof.
  apply (root_request_binds_empty_value (H := trace_HTTP) [logging "A"] "GET" "id"
           (tracing_body "h") [] (GET "/"));
    reflexivity.
Defined.

Lemma nil_handler_static_panics_dynamic_misses_witness :
  (exists r1 : @Router trace_HTTP,
      Router_AddRoute NewRouter "GET" "/a/b" None = Returned r1
      /\ resolve r1 "GET" "a/b" = StaticHit None
      /\ ServeHTTP r1 [] (GET "a/b") = Panicked NilDereference)
  /\ (exists r2 : @Router trace_HTTP,
        Router_AddRoute (Uses NewRouter [logging "A"]) "GET" "/users/:id" None
          = Returned r2
        /\ resolve r2 "GET" "/users/7" = Miss
        /\ ServeHTTP r2 [] (GET "/users/7") = http_NotFound [] (GET "/users/7")).
Proof.
  apply (nil_handler_static_panics_dynamic_misses (H := trace_HTTP) NewRouter
           "GET" "/a/b" [] (GET "a/b") [logging "A"] "GET"
           [Lit "users"; Par "id" "7"] [] (GET "/users/7"));
    try reflexivity.
  - now repeat constructor.
  - discriminate.
Defined.

Lemma marker_inside_literal_route_witness :
  exists r : @Router trace_HTTP,
    Router_AddRoute (Uses NewRouter [logging "A"]) "GET" "/time/12:30" (tracing "h")
      = Returned r
    /\ staticRoutes r = ∅
    /\ resolve r "GET" "/time/12:30" = DynamicHit (tracing_body "h") ∅
    /\ ServeHTTP r [] (GET "/time/12:30")
       = call (composed [logging "A"] (tracing "h")) []
           (withParams (GET "/time/12:30") ∅).
Proof.
  apply (marker_inside_literal_route (H := trace_HTTP) [logging "A"] "GET"
           ["time"; "12:30"] (tracing_body "h") [] (GET "/time/12:30"));
    try reflexivity.
  - now repeat constructor.
  - discriminate.
Defined.

Lemma insertParts_keeps_nodes_witness :
  exists c' : @node trace_HTTP,
    walk (insertParts bothChildren [":other"] (tracing "h3")) [":param"] = Some c'
    /\ paramName c' = "id"
    /\ isParam c' = true
    /\ isWillcard c' = false
    /\ handler c' = (if decide ([":param"] = keysOf [":other"])
                     then tracing "h3" else tracing "h2").
Proof.
  apply (insertParts_keeps_nodes (H := trace_HTTP) bothChildren [":other"]
           (tracing "h3") [":param"]
           (mkNode ∅ (tracing "h2") true false "id")).
  reflexivity.
Defined.

Lemma independent_registrations_commute_witness :
  AddRoutes (H := trace_HTTP) NewRouter
    [mkRoute "GET" "/a/b" (tracing "ab"); mkRoute "GET" "/a/:x" (tracing "ax")]
  = AddRoutes NewRouter
      [mkRoute "GET" "/a/:x" (tracing "ax"); mkRoute "GET" "/a/b" (tracing "ab")].
Proof.
  apply (independent_registrations_commute (H := trace_HTTP) NewRouter
           (mkRoute "GET" "/a/b" (tracing "ab"))
           (mkRoute "GET" "/a/:x" (tracing "ax"))).
  exact I.
Defined.

Lemma registration_leaves_other_methods_witness :
  exists r1 : @Router trace_HTTP,
    Router_AddRoute usersRouter "POST" "/users/:id" (tracing "post") = Returned r1
    /\ resolve r1 "GET" "/users/42" = resolve usersRouter "GET" "/users/42".
Proof.
  apply (registration_leaves_other_methods (H := trace_HTTP) usersRouter
           "POST" "/users/:id" (tracing "post") "GET" "/users/42");
    try reflexivity.
  discriminate.
Defined.

Lemma wildcard_beside_parameter_is_shadowed_witness :
  (exists r1 r2 : @Router trace_HTTP,
      Router_AddRoute (Uses NewRouter [logging "A"]) "GET" "/files/:name"
        (tracing "one") = Returned r1
      /\ Router_AddRoute r1 "GET" "/files/*" (tracing "all") = Returned r2
      /\ resolve r2 "GET" "/files/a/b" = Miss
      /\ ServeHTTP r2 [] (GET "/files/a/b") = http_NotFound [] (GET "/files/a/b"))
  /\ (exists r1 r2 : @Router trace_HTTP,
        Router_AddRoute (Uses NewRouter [logging "A"]) "GET" "/files/*"
          (tracing "all") = Returned r1
        /\ Router_AddRoute r1 "GET" "/files/:name" (tracing "one") = Returned r2
        /\ resolve r2 "GET" "/files/a/b" = Miss
        /\ ServeHTTP r2 [] (GET "/files/a/b") = http_NotFound [] (GET "/files/a/b")).
Proof.
  apply (wildcard_beside_parameter_is_shadowed (H := trace_HTTP) [logging "A"] "GET"
           ["files"] "name" "a" "b" [] (tracing_body "one") (tracing_body "all")
           [] (GET "/files/a/b"));
    try reflexivity; now repeat constructor.
Defined.

Lemma literal_route_hides_parameter_match_witness :
  exists r1 r2 : @Router trace_HTTP,
    Router_AddRoute (Uses NewRouter [logging "A"]) "GET" "/users/:id" (tracing "user")
      = Returned r1
    /\ Router_AddRoute r1 "GET" "/users/me/:tab" (tracing "me") = Returned r2
    /\ resolve r1 "GET" "/users/me" = DynamicHit (tracing_body "user") {[ "id" := "me" ]}
    /\ ServeHTTP r1 [] (GET "/users/me")
       = call (composed [logging "A"] (tracing "user")) []
           (withParams (GET "/users/me") {[ "id" := "me" ]})
    /\ resolve r2 "GET" "/users/me" = Miss
    /\ ServeHTTP r2 [] (GET "/users/me") = http_NotFound [] (GET "/users/me").
Proof.
  apply (literal_route_hides_parameter_match (H := trace_HTTP) [logging "A"] "GET"
           ["users"] "id" "me" "tab" (tracing_body "user") (tracing_body "me")
           [] (GET "/users/me"));
    try reflexivity.
  now repeat constructor.
Defined.

(** ** Parameter routes beside other routes, and the spellings of a path *)

Lemma Trim_spelling_concat (segs : list string) (p : string) :
  Forall (fun s => segment s = true) segs ->
  In p (spellings (String.concat "/" segs)) ->
  strings.Trim p "/" = String.concat "/" segs.
Proof.
  intros Hsegs Hp. rewrite (Trim_spelling _ p Hp).
  rewrite <- (Trim_spelling (String.concat "/" segs) (pathOf segs)).
  - now apply Trim_pathOf.
  - right. left. reflexivity.
Qed.

Section OtherRoutesFacts.

Context `{HTTP}.

Implicit Types (r : Router) (h : HandlerFunc) (current : node).




End OtherRoutesFacts.

Section ParameterAndSpelling.

Context `{HTTP}.

Implicit Types (r : Router) (h : HandlerFunc) (mws : list Middleware).


(** C8: the spellings [a/b], [/a/b] and [/a/b/] of a path are one path to
    the router, at registration and at dispatch.  They have the same trimmed
    form; registering under one is registering under another; what a dispatch
    selects for one it selects for another.  So a route registered under any
    spelling is the route a request in any spelling reaches: a static route,
    on any router, is selected and its handler called under the global
    middleware; a dynamic route of literal and parameter segments, on a
    router with that route, is selected with its parameters bound and its
    handler called.  [ServeHTTP] calls what the selection gives. *)
Theorem path_spellings_equivalent r (method s : string) h (p p' q q' m' : string)
    (ss ps : string) hs ws reqs
    mws (pat : list pseg) (pd : string) f wd reqd :
  In p (spellings s) -> In p' (spellings s) ->
  In q (spellings s) -> In q' (spellings s) ->
  isDynamic (strings.Trim ss "/") = false -> In ps (spellings ss) ->
  Method reqs = method -> In (URL_Path reqs) (spellings ss) ->
  Forall (fun x => pseg_wf x = true) pat -> pat <> [] ->
  isDynamic (String.concat "/" (map patternOf pat)) = true ->
  In pd (spellings (String.concat "/" (map patternOf pat))) ->
  In (URL_Path reqd) (spellings (String.concat "/" (map requestOf pat))) ->
  strings.Trim p "/" = strings.Trim p' "/"
  /\ Router_AddRoute r method p h = Router_AddRoute r method p' h
  /\ resolve r m' q = resolve r m' q'
  /\ (r1 ← Router_AddRoute r method p h; Returned (resolve r1 m' q))
     = (r1 ← Router_AddRoute r method p' h; Returned (resolve r1 m' q'))
  /\ (forall w req,
        ServeHTTP r w req = respond r (resolve r (Method req) (URL_Path req)) w req)
  /\ (exists r1,
        Router_AddRoute r method ps hs = Returned r1
        /\ resolve r1 method (URL_Path reqs) = StaticHit hs
        /\ ServeHTTP r1 ws reqs = call (composed (middleware r) hs) ws reqs)
  /\ (exists r2,
        Router_AddRoute (Uses NewRouter mws) (Method reqd) pd (Some f) = Returned r2
        /\ resolve r2 (Method reqd) (URL_Path reqd) = DynamicHit f (bound pat ∅)
        /\ ServeHTTP r2 wd reqd
           = call (composed mws (Some f)) wd (withParams reqd (bound pat ∅))).
Proof.
  intros Hp Hp' Hq Hq' Hstatic Hps Hmethod Hqs Hpat Hne Hdyn Hpd Hqd.
  apply Trim_spelling in Hp, Hp', Hq, Hq', Hps, Hqs.
  assert (Hpp : strings.Trim p "/" = strings.Trim p' "/") by congruence.
  assert (Hqq : strings.Trim q "/" = strings.Trim q' "/") by congruence.
  split; [easy|]. split; [now apply Router_AddRoute_Trim|].
  split; [now apply resolve_Trim|].
  split; [|split; [apply ServeHTTP_resolve|split]].
  - rewrite (Router_AddRoute_Trim r method p p') by easy.
    destruct (Router_AddRoute r method p' h) as [r1|e]; [|easy].
    cbn. f_equal. now apply resolve_Trim.
  - rewrite Router_AddRoute_static by now rewrite Hps.
    eexists. split; [reflexivity|].
    match goal with
    | |- resolve ?r1 _ _ = _ /\ _ =>
        assert (Hres : resolve r1 method (URL_Path reqs) = StaticHit hs)
    end.
    { unfold resolve. cbn zeta. cbn [staticRoutes].
      now rewrite Hqs, Hps, lookup_insert_eq. }
    split; [exact Hres|].
    rewrite ServeHTTP_resolve, Hmethod, Hres. cbn [respond].
    now rewrite serveWithMiddleware_composed.
  - assert (Hpsegs := wf_segments_patternOf pat Hpat).
    assert (Hrsegs := wf_segments_requestOf pat Hpat).
    assert (Hpne : map patternOf pat <> []) by now destruct pat.
    assert (Hrne : map requestOf pat <> []) by now destruct pat.
    rewrite (Router_AddRoute_Trim _ _ pd (pathOf (map patternOf pat)))
      by now rewrite (Trim_spelling_concat (map patternOf pat)), Trim_pathOf.
    rewrite Router_AddRoute_pattern by easy.
    eexists. split; [reflexivity|].
    match goal with
    | |- resolve ?r2 _ _ = _ /\ _ =>
        assert (Hres : resolve r2 (Method reqd) (URL_Path reqd)
                       = DynamicHit f (bound pat ∅))
    end.
    { rewrite (resolve_Trim _ _ (URL_Path reqd) (pathOf (map requestOf pat)))
        by now rewrite (Trim_spelling_concat (map requestOf pat)), Trim_pathOf.
      rewrite (resolve_trie _ _ _ (map requestOf pat)); try easy.
      - rewrite rootOf_insert, rootOf_Uses_NewRouter.
        pose proof (search_inserted_route pat [] [] (Some f) (fun ps => (Some f, ps))
                      Hpat (fun current params _ => eq_refl) emptyRoot ∅
                      blank_emptyRoot) as Hsearch.
        rewrite !app_nil_r in Hsearch. now rewrite Hsearch.
      - cbn [staticRoutes]. now rewrite staticRoutes_Uses. }
    split; [exact Hres|].
    rewrite ServeHTTP_resolve, Hres. cbn [respond].
    rewrite serveWithMiddleware_composed. cbn [middleware].
    now rewrite middleware_Uses_NewRouter.
Qed.

End ParameterAndSpelling.



Lemma path_spellings_equivalent_witness :
  strings.Trim "/a/b" "/" = strings.Trim "/a/b/" "/"
  /\ Router_AddRoute (H := trace_HTTP) NewRouter "GET" "/a/b" (tracing "ab")
     = Router_AddRoute NewRouter "GET" "/a/b/" (tracing "ab")
  /\ resolve (H := trace_HTTP) NewRouter "GET" "a/b" = resolve NewRouter "GET" "/a/b/"
  /\ (r1 ← Router_AddRoute (H := trace_HTTP) NewRouter "GET" "/a/b" (tracing "ab");
      Returned (resolve r1 "GET" "a/b"))
     = (r1 ← Router_AddRoute NewRouter "GET" "/a/b/" (tracing "ab");
        Returned (resolve r1 "GET" "/a/b/"))
  /\ (forall w req,
        ServeHTTP (H := trace_HTTP) NewRouter w req
        = respond NewRouter (resolve NewRouter (Method req) (URL_Path req)) w req)
  /\ (exists r1 : @Router trace_HTTP,
        Router_AddRoute NewRouter "GET" "/a/b/" (tracing "ab") = Returned r1
        /\ resolve r1 "GET" "a/b" = StaticHit (tracing "ab")
        /\ ServeHTTP r1 [] (GET "a/b")
           = call (composed (middleware NewRouter) (tracing "ab")) [] (GET "a/b"))
  /\ (exists r2 : @Router trace_HTTP,
        Router_AddRoute (Uses NewRouter [logging "A"]) "GET" "users/:id" (tracing "h")
          = Returned r2
        /\ resolve r2 "GET" "/users/42/" = DynamicHit (tracing_body "h") {[ "id" := "42" ]}
        /\ ServeHTTP r2 [] (GET "/users/42/")
           = call (composed [logging "A"] (tracing "h")) []
               (withParams (GET "/users/42/") {[ "id" := "42" ]})).
Proof.
  apply (path_spellings_equivalent (H := trace_HTTP) NewRouter "GET" "a/b"
           (tracing "ab") "/a/b" "/a/b/" "a/b" "/a/b/" "GET"
           "a/b" "/a/b/" (tracing "ab") [] (GET "a/b")
           [logging "A"] [Lit "users"; Par "id" "42"] "users/:id"
           (tracing_body "h") [] (GET "/users/42/"));
    try reflexivity; simpl; auto.
Defined.
